(** * SocketRobot: the arbitration engine and its two transports

    A shallow embedding of [Server/ServerSocket.py] (the socket server with its
    robot thread and socket thread), of the variant [Server/server.py], and of
    [webapp/main.py] (the websocket controller), together with the priority
    transition table of the specification, and the properties relating them.

    Conventions.
    - The module globals of [ServerSocket.py] are Python integers; they are
      modelled as [Z] and compared with [Z.eqb], as the source compares them
      with [==] and [!=].
    - One pass through the body of [while True] in [robotThread.run] is one
      tick.  A tick is taken on one snapshot of the globals: the interleaving
      of the two threads is at the granularity of ticks and received messages.
    - An actuator call is recorded by the name of the function called; what the
      function does to the GPIO pins is modelled next to it.
    - A message of the text protocol is the decoded result of one [recv].
    - On the websocket, [json.loads] is not modelled: a frame is given by what
      [json.loads] makes of it (see [Webapp.frame]).  The controller is the
      mock of the source, together with the sequence of methods invoked on it,
      which is what any [BaseRobotController] receives. *)

From Stdlib Require Import ZArith Bool List String Ascii Lia.
Import ListNotations.
Local Open Scope string_scope.
Local Open Scope list_scope.
Local Open Scope Z_scope.

(** ** The specification's data model and transition table (section 3, 4.2) *)

Module Spec.

Inductive MotionCommand : Type :=
| CmdNone | CmdForward | CmdBackward | CmdLeft | CmdRight.

Inductive Action : Type :=
| stop | forward | backward | left | right.

Record DirectionFlags : Type := Flags
  { f_forward : bool; f_backward : bool; f_left : bool; f_right : bool }.

Definition MotionCommand_eqb (a b : MotionCommand) : bool :=
  match a, b with
  | CmdNone, CmdNone | CmdForward, CmdForward | CmdBackward, CmdBackward
  | CmdLeft, CmdLeft | CmdRight, CmdRight => true
  | _, _ => false
  end.

(** The "prev condition" column: [≠c] or [=c]. *)
Inductive PrevCond : Type :=
| IsNot (c : MotionCommand)
| Is (c : MotionCommand).

Definition holds (pc : PrevCond) (prev : MotionCommand) : bool :=
  match pc with
  | IsNot c => negb (MotionCommand_eqb prev c)
  | Is c => MotionCommand_eqb prev c
  end.

Record Rule : Type := Row
  { r_f : bool; r_b : bool; r_l : bool; r_r : bool;
    r_prev : PrevCond; r_action : Action; r_new : MotionCommand }.

(** The sixteen rows, in the order of the table. *)
Definition table : list Rule :=
  [ Row false false false false (IsNot CmdNone)     stop     CmdNone
  ; Row true  true  true  true  (IsNot CmdNone)     stop     CmdNone
  ; Row false false true  true  (IsNot CmdNone)     stop     CmdNone
  ; Row true  true  false false (IsNot CmdNone)     stop     CmdNone
  ; Row true  false false false (IsNot CmdForward)  forward  CmdForward
  ; Row true  false true  false (Is CmdLeft)        forward  CmdForward
  ; Row true  false false true  (Is CmdRight)       forward  CmdForward
  ; Row true  false true  true  (IsNot CmdForward)  forward  CmdForward
  ; Row false true  false false (IsNot CmdBackward) backward CmdBackward
  ; Row false true  true  false (Is CmdLeft)        backward CmdBackward
  ; Row false true  false true  (Is CmdRight)       backward CmdBackward
  ; Row false true  true  true  (IsNot CmdBackward) backward CmdBackward
  ; Row false false true  false (IsNot CmdLeft)     left     CmdLeft
  ; Row true  true  true  false (IsNot CmdLeft)     left     CmdLeft
  ; Row false false false true  (IsNot CmdRight)    right    CmdRight
  ; Row true  true  false true  (IsNot CmdRight)    right    CmdRight ].

Definition matches (fl : DirectionFlags) (prev : MotionCommand) (r : Rule) : bool :=
  Bool.eqb (f_forward fl) (r_f r) && Bool.eqb (f_backward fl) (r_b r)
  && Bool.eqb (f_left fl) (r_l r) && Bool.eqb (f_right fl) (r_r r)
  && holds (r_prev r) prev.

(** First matching rule wins. *)
Definition first_match (fl : DirectionFlags) (prev : MotionCommand)
  : option Rule := find (matches fl prev) table.

(** The command the table designates for an action (its "new prev" column
    is a function of the action). *)
Definition command_of (a : Action) : MotionCommand :=
  match a with
  | stop => CmdNone
  | forward => CmdForward
  | backward => CmdBackward
  | left => CmdLeft
  | right => CmdRight
  end.

End Spec.

(** ** [Server/ServerSocket.py] *)

Module ServerSocket.

(** *** GPIO and the motion primitives (lines 15-62) *)

Inductive level : Type := LOW | HIGH.

(** The four output pins set up by [initialize], by BOARD number. *)
Record pins : Type := Pins
  { pin35 : level; pin37 : level; pin36 : level; pin38 : level }.

(** [gpio.output(pin, lv)] on one of the four pins; other numbers are not
    driven by this program. *)
Definition output (pin : Z) (lv : level) (p : pins) : pins :=
  if pin =? 35 then Pins lv (pin37 p) (pin36 p) (pin38 p)
  else if pin =? 37 then Pins (pin35 p) lv (pin36 p) (pin38 p)
  else if pin =? 36 then Pins (pin35 p) (pin37 p) lv (pin38 p)
  else if pin =? 38 then Pins (pin35 p) (pin37 p) (pin36 p) lv
  else p.

Definition clear (p : pins) : pins :=
  output 38 LOW (output 36 LOW (output 37 LOW (output 35 LOW p))).

Definition forward (p : pins) : pins :=
  output 38 LOW (output 36 HIGH (output 37 LOW (output 35 HIGH (clear p)))).

Definition backward (p : pins) : pins :=
  output 38 HIGH (output 36 LOW (output 37 HIGH (output 35 LOW (clear p)))).

Definition left (p : pins) : pins :=
  output 38 HIGH (output 36 LOW (output 37 LOW (output 35 HIGH (clear p)))).

Definition right (p : pins) : pins :=
  output 38 LOW (output 36 HIGH (output 37 HIGH (output 35 LOW (clear p)))).

(** An actuator call, by the function called. *)
Inductive call : Type :=
| call_clear | call_forward | call_backward | call_left | call_right.

Definition drive (c : call) : pins -> pins :=
  match c with
  | call_clear => clear
  | call_forward => forward
  | call_backward => backward
  | call_left => left
  | call_right => right
  end.

(** *** The module globals (lines 8-13) *)

Record globals : Type := Globals
  { previousstate : Z   (* 0 1 2 3 4 none forward backward left right *)
  ; forwardvar : Z
  ; backwardvar : Z
  ; leftvar : Z
  ; rightvar : Z
  ; exit_program : Z }.

Definition initial : globals := Globals 0 0 0 0 0 0.

Definition set_previousstate (v : Z) (g : globals) : globals :=
  Globals v (forwardvar g) (backwardvar g) (leftvar g) (rightvar g) (exit_program g).
Definition set_forwardvar (v : Z) (g : globals) : globals :=
  Globals (previousstate g) v (backwardvar g) (leftvar g) (rightvar g) (exit_program g).
Definition set_backwardvar (v : Z) (g : globals) : globals :=
  Globals (previousstate g) (forwardvar g) v (leftvar g) (rightvar g) (exit_program g).
Definition set_leftvar (v : Z) (g : globals) : globals :=
  Globals (previousstate g) (forwardvar g) (backwardvar g) v (rightvar g) (exit_program g).
Definition set_rightvar (v : Z) (g : globals) : globals :=
  Globals (previousstate g) (forwardvar g) (backwardvar g) (leftvar g) v (exit_program g).
Definition set_exit_program (v : Z) (g : globals) : globals :=
  Globals (previousstate g) (forwardvar g) (backwardvar g) (leftvar g) (rightvar g) v.

(** *** [robotThread.run], one pass of the loop body (lines 82-135) *)

(** What one pass does: the globals afterwards, the actuator calls made, in
    order, and whether the loop goes on ([false] is the [break]). *)
Record outcome : Type := Outcome
  { after : globals; issued : list call; goes_on : bool }.

(** The test of one [elif]: the four flags against constants. *)
Definition flags_are (g : globals) (f b l r : Z) : bool :=
  (forwardvar g =? f) && (backwardvar g =? b) && (leftvar g =? l) && (rightvar g =? r).

Definition neq (a b : Z) : bool := negb (a =? b).

(** [cleanup()] (lines 29-32): [clear()] then [previousstate = 0]. *)
Definition cleanup (g : globals) : globals * list call :=
  (set_previousstate 0 g, [call_clear]).

Definition tick (g : globals) : outcome :=
  let prev := previousstate g in
  if exit_program g =? 1 then
    let '(g', cs) := cleanup g in Outcome g' cs false
  else if flags_are g 0 0 0 0 && neq prev 0 then
    Outcome (set_previousstate 0 g) [call_clear] true
  else if flags_are g 1 1 1 1 && neq prev 0 then
    Outcome (set_previousstate 0 g) [call_clear] true
  else if flags_are g 0 0 1 1 && neq prev 0 then
    Outcome (set_previousstate 0 g) [call_clear] true
  else if flags_are g 1 1 0 0 && neq prev 0 then
    Outcome (set_previousstate 0 g) [call_clear] true
  else if flags_are g 1 0 0 0 && neq prev 1 then
    Outcome (set_previousstate 1 g) [call_forward] true
  else if flags_are g 1 0 1 0 && (prev =? 3) then
    Outcome (set_previousstate 1 g) [call_forward] true
  else if flags_are g 1 0 0 1 && (prev =? 4) then
    Outcome (set_previousstate 1 g) [call_forward] true
  else if flags_are g 1 0 1 1 && neq prev 1 then
    Outcome (set_previousstate 1 g) [call_forward] true
  else if flags_are g 0 1 0 0 && neq prev 2 then
    Outcome (set_previousstate 2 g) [call_backward] true
  else if flags_are g 0 1 1 0 && (prev =? 3) then
    Outcome (set_previousstate 2 g) [call_backward] true
  else if flags_are g 0 1 0 1 && (prev =? 4) then
    Outcome (set_previousstate 2 g) [call_backward] true
  else if flags_are g 0 1 1 1 && neq prev 2 then
    Outcome (set_previousstate 2 g) [call_backward] true
  else if flags_are g 0 0 1 0 && neq prev 3 then
    Outcome (set_previousstate 3 g) [call_left] true
  else if flags_are g 1 1 1 0 && neq prev 3 then
    Outcome (set_previousstate 3 g) [call_left] true
  else if flags_are g 0 0 0 1 && neq prev 4 then
    Outcome (set_previousstate 4 g) [call_right] true
  else if flags_are g 1 1 0 1 && neq prev 4 then
    Outcome (set_previousstate 4 g) [call_right] true
  else
    Outcome g [] true.

(** *** Relating the integers of the code to the specification's types *)

Definition code_of_command (c : Spec.MotionCommand) : Z :=
  match c with
  | Spec.CmdNone => 0
  | Spec.CmdForward => 1
  | Spec.CmdBackward => 2
  | Spec.CmdLeft => 3
  | Spec.CmdRight => 4
  end.

Definition code_of_flag (b : bool) : Z := if b then 1 else 0.

Definition call_of_action (a : Spec.Action) : call :=
  match a with
  | Spec.stop => call_clear
  | Spec.forward => call_forward
  | Spec.backward => call_backward
  | Spec.left => call_left
  | Spec.right => call_right
  end.

(** The command an actuator function puts on the motors, as recorded in
    [previousstate]. *)
Definition code_of_call (c : call) : Z :=
  match c with
  | call_clear => 0
  | call_forward => 1
  | call_backward => 2
  | call_left => 3
  | call_right => 4
  end.

(** A running engine ([exit_program = 0]) holding the given flags and
    previous command. *)
Definition holding (fl : Spec.DirectionFlags) (prev : Spec.MotionCommand) : globals :=
  Globals (code_of_command prev)
          (code_of_flag (Spec.f_forward fl)) (code_of_flag (Spec.f_backward fl))
          (code_of_flag (Spec.f_left fl)) (code_of_flag (Spec.f_right fl)) 0.

(** What the table prescribes for a tick, as an outcome. *)
Definition prescribed (fl : Spec.DirectionFlags) (prev : Spec.MotionCommand) : outcome :=
  match Spec.first_match fl prev with
  | Some r =>
      Outcome (holding fl (Spec.r_new r)) [call_of_action (Spec.r_action r)] true
  | None => Outcome (holding fl prev) [] true
  end.

(** *** [socketThread.run] (lines 158-208) *)

(** What the inner loop does with one decoded message (lines 174-202): the
    globals afterwards, and whether the connection is closed and the inner
    loop left ([true] only for [exit]).  A message equal to none of the nine
    literals falls through the chain and changes nothing. *)
Definition receive (decoded_data : string) (g : globals) : globals * bool :=
  if String.eqb decoded_data "exit" then (set_exit_program 1 g, true)
  else if String.eqb decoded_data "'w' press" then (set_forwardvar 1 g, false)
  else if String.eqb decoded_data "'w' release" then (set_forwardvar 0 g, false)
  else if String.eqb decoded_data "'a' press" then (set_leftvar 1 g, false)
  else if String.eqb decoded_data "'a' release" then (set_leftvar 0 g, false)
  else if String.eqb decoded_data "'s' press" then (set_backwardvar 1 g, false)
  else if String.eqb decoded_data "'s' release" then (set_backwardvar 0 g, false)
  else if String.eqb decoded_data "'d' press" then (set_rightvar 1 g, false)
  else if String.eqb decoded_data "'d' release" then (set_rightvar 0 g, false)
  else (g, false).

(** Where the socket thread stands: in [server.accept()] (line 161), in
    [client_socket.recv] of the inner loop (line 170), or past the [break] of
    line 206. *)
Inductive sock : Type := Accepting | Serving | Ended.

(** *** The two threads together *)

Record system : Type := System
  { vars : globals           (* the module globals, shared by both threads *)
  ; gpio : pins
  ; robot_running : bool     (* the robot thread is still in its loop *)
  ; socket : sock
  ; calls : list call        (* every actuator call so far, oldest first *)
  }.

Inductive event : Type :=
| RobotTick                      (* the robot thread makes one pass *)
| Accept                         (* [server.accept()] returns a connection *)
| Recv (decoded_data : string)   (* [recv] returns and the data decodes *)
| Raise.                         (* [accept], [recv] or [decode] raises *)

Definition step (s : system) (e : event) : system :=
  match e with
  | RobotTick =>
      if robot_running s then
        let o := tick (vars s) in
        System (after o) (fold_left (fun p c => drive c p) (issued o) (gpio s))
               (goes_on o) (socket s) (calls s ++ issued o)
      else s
  | Accept =>
      match socket s with
      | Accepting => System (vars s) (gpio s) (robot_running s) Serving (calls s)
      | _ => s
      end
  | Recv decoded_data =>
      match socket s with
      | Serving =>
          let '(g, closed) := receive decoded_data (vars s) in
          System g (gpio s) (robot_running s)
                 (if closed then Accepting else Serving) (calls s)
      | _ => s
      end
  | Raise =>
      (* the bare [except] of lines 203-208 *)
      match socket s with
      | Ended => s
      | _ =>
          System (vars s) (gpio s) (robot_running s)
                 (if exit_program (vars s) =? 1 then Ended else Accepting) (calls s)
      end
  end.

Definition run (es : list event) (s : system) : system := fold_left step es s.

(** The program as started at lines 210-215: globals as initialised, robot
    thread in its loop, socket thread about to accept. *)
Definition boot (p : pins) : system := System initial p true Accepting [].

(** The inner loop over a sequence of decoded messages, none of them
    [exit]: the globals at the end. *)
Definition feed (msgs : list string) (g : globals) : globals :=
  fold_left (fun g d => fst (receive d g)) msgs g.

(** The release messages of the keys other than [w]. *)
Definition other_releases : list string :=
  ["'s' release"; "'a' release"; "'d' release"].

Definition is_recv (e : event) : bool :=
  match e with Recv _ => true | _ => false end.

Definition is_tick (e : event) : bool :=
  match e with RobotTick => true | _ => false end.

(** The four flags of the globals. *)
Definition flags_of (g : globals) : Z * Z * Z * Z :=
  (forwardvar g, backwardvar g, leftvar g, rightvar g).

(** *** The GPIO writes of the motion primitives, one by one *)

(** The calls of [gpio.output] made by [clear] (lines 24-27), in order. *)
Definition writes_clear : list (Z * level) :=
  [(35, LOW); (37, LOW); (36, LOW); (38, LOW)].

(** The calls of [gpio.output] made by a motion primitive (lines 23-62), in
    order: those of [clear()], then its own four. *)
Definition writes (c : call) : list (Z * level) :=
  match c with
  | call_clear => writes_clear
  | call_forward => writes_clear ++ [(35, HIGH); (37, LOW); (36, HIGH); (38, LOW)]
  | call_backward => writes_clear ++ [(35, LOW); (37, HIGH); (36, LOW); (38, HIGH)]
  | call_left => writes_clear ++ [(35, HIGH); (37, LOW); (36, LOW); (38, HIGH)]
  | call_right => writes_clear ++ [(35, LOW); (37, HIGH); (36, HIGH); (38, LOW)]
  end.

Definition apply_writes (ws : list (Z * level)) (p : pins) : pins :=
  fold_left (fun p w => output (fst w) (snd w) p) ws p.

Definition is_high (lv : level) : bool :=
  match lv with HIGH => true | LOW => false end.

(** Neither side has both of its pins HIGH (pins 35 and 37 are the left side,
    36 and 38 the right side, lines 17-20). *)
Definition safe (p : pins) : bool :=
  negb (is_high (pin35 p) && is_high (pin37 p))
  && negb (is_high (pin36 p) && is_high (pin38 p)).

(** The pins as a motion primitive leaves them. *)
Definition pattern (c : call) : pins := drive c (Pins LOW LOW LOW LOW).

(** No two neighbours of a list of calls are the same call. *)
Fixpoint no_repeat (l : list call) : Prop :=
  match l with
  | a :: (b :: _) as t => a <> b /\ no_repeat t
  | _ => True
  end.

(** The code of the last call of a list, 0 when there is none. *)
Definition last_code (l : list call) : Z := code_of_call (last l call_clear).

(** The flags with only the key of a motion held ([clear]: none held). *)
Definition solo (c : call) : Z * Z * Z * Z :=
  match c with
  | call_clear => (0, 0, 0, 0)
  | call_forward => (1, 0, 0, 0)
  | call_backward => (0, 1, 0, 0)
  | call_left => (0, 0, 1, 0)
  | call_right => (0, 0, 0, 1)
  end.

(** One straight key held together with one turn key: the flags, the code
    of the turn, and the straight motion. *)
Definition diagonals : list ((Z * Z * Z * Z) * Z * call) :=
  [ ((1, 0, 1, 0), 3, call_forward); ((1, 0, 0, 1), 4, call_forward)
  ; ((0, 1, 1, 0), 3, call_backward); ((0, 1, 0, 1), 4, call_backward) ].

(** The nine messages [socketThread.run] knows. *)
Definition known_messages : list string :=
  [ "exit"; "'w' press"; "'w' release"; "'a' press"; "'a' release"
  ; "'s' press"; "'s' release"; "'d' press"; "'d' release" ].

(** The value the last message of a key wrote to its flag, if any message of
    the key came. *)
Fixpoint last_write (press release : string) (msgs : list string) : option Z :=
  match msgs with
  | [] => None
  | d :: rest =>
      match last_write press release rest with
      | Some v => Some v
      | None =>
          if String.eqb d press then Some 1
          else if String.eqb d release then Some 0
          else None
      end
  end.

(** A global that holds 0 or 1. *)
Definition bit (z : Z) : Prop := z = 0 \/ z = 1.

(** What holds of the two threads together at every moment, for a program
    started with the pins at [p]. *)
Definition consistent (p : pins) (s : system) : Prop :=
  (bit (forwardvar (vars s)) /\ bit (backwardvar (vars s))
   /\ bit (leftvar (vars s)) /\ bit (rightvar (vars s))
   /\ bit (exit_program (vars s)))
  /\ previousstate (vars s) = last_code (calls s)
  /\ gpio s = match calls s with
              | [] => p
              | _ => pattern (last (calls s) call_clear)
              end
  /\ (if robot_running s then no_repeat (calls s)
      else no_repeat (removelast (calls s))).

(** What holds of a thread that has ended: only [exit] ends one, and the
    robot thread ends on a [clear()]. *)
Definition ended_by_exit (s : system) : Prop :=
  (robot_running s = false ->
   exit_program (vars s) = 1 /\ exists cs, calls s = cs ++ [call_clear])
  /\ (socket s = Ended -> exit_program (vars s) = 1).

End ServerSocket.

(** ** [Server/server.py] *)

(** The variant that drives the motors through [gpiozero].  Its two
    [run] methods are those of [ServerSocket.py], line for line; what differs
    is where the six variables live.  [main] assigns them as its own locals
    (lines 21-26), while the methods declare them [global]: the names the
    threads read and write are those of the module namespace, where a name is
    bound only once something has assigned it. *)

Module ServerPy.

Record namespace : Type := Namespace
  { previousstate : option Z
  ; forwardvar : option Z
  ; backwardvar : option Z
  ; leftvar : option Z
  ; rightvar : option Z
  ; exit_program : option Z }.

(** The module namespace when the threads start: [main] has bound nothing
    in it. *)
Definition at_start : namespace := Namespace None None None None None None.

(** [previousstate = v] *)
Definition set_previousstate (v : Z) (ns : namespace) : namespace :=
  Namespace (Some v) (forwardvar ns) (backwardvar ns) (leftvar ns) (rightvar ns)
            (exit_program ns).

(** Evaluation that may stop on an unbound name. *)
Inductive result (A : Type) : Type :=
| Ok (a : A)
| NameError (name : string).
Arguments Ok {A} a.
Arguments NameError {A} name.

Definition bind {A B : Type} (r : result A) (k : A -> result B) : result B :=
  match r with
  | Ok a => k a
  | NameError n => NameError n
  end.

Definition read (name : string) (v : option Z) : result Z :=
  match v with
  | Some z => Ok z
  | None => NameError name
  end.

(** [name == k] and [name != k] *)
Definition eq (name : string) (v : option Z) (k : Z) : result bool :=
  bind (read name v) (fun z => Ok (z =? k)).
Definition ne (name : string) (v : option Z) (k : Z) : result bool :=
  bind (read name v) (fun z => Ok (negb (z =? k))).

(** [a and b]: [b] is evaluated only when [a] is true. *)
Definition and_ (a b : result bool) : result bool :=
  bind a (fun x => if x then b else Ok false).

Notation "a &&& b" := (and_ a b) (at level 40, left associativity).
Notation "'IF' c 'THEN' a 'ELSE' b" :=
  (bind c (fun x : bool => if x then a else b))
    (at level 10, c at level 100, a at level 100, b at level 200).

Definition flags_are (ns : namespace) (f b l r : Z) : result bool :=
  eq "forwardvar" (forwardvar ns) f &&& eq "backwardvar" (backwardvar ns) b
  &&& eq "leftvar" (leftvar ns) l &&& eq "rightvar" (rightvar ns) r.

Definition prev_ne (ns : namespace) (k : Z) : result bool :=
  ne "previousstate" (previousstate ns) k.
Definition prev_eq (ns : namespace) (k : Z) : result bool :=
  eq "previousstate" (previousstate ns) k.

Record outcome : Type := Outcome
  { after : namespace; issued : list ServerSocket.call; goes_on : bool }.

Definition does (v : Z) (c : ServerSocket.call) (ns : namespace) : result outcome :=
  Ok (Outcome (set_previousstate v ns) [c] true).

(** One pass of the loop of [robotThread.run] (lines 74-127). *)
Definition tick (ns : namespace) : result outcome :=
  IF eq "exit_program" (exit_program ns) 1
  THEN Ok (Outcome (set_previousstate 0 ns) [ServerSocket.call_clear] false)
  ELSE IF flags_are ns 0 0 0 0 &&& prev_ne ns 0 THEN does 0 ServerSocket.call_clear ns
  ELSE IF flags_are ns 1 1 1 1 &&& prev_ne ns 0 THEN does 0 ServerSocket.call_clear ns
  ELSE IF flags_are ns 0 0 1 1 &&& prev_ne ns 0 THEN does 0 ServerSocket.call_clear ns
  ELSE IF flags_are ns 1 1 0 0 &&& prev_ne ns 0 THEN does 0 ServerSocket.call_clear ns
  ELSE IF flags_are ns 1 0 0 0 &&& prev_ne ns 1 THEN does 1 ServerSocket.call_forward ns
  ELSE IF flags_are ns 1 0 1 0 &&& prev_eq ns 3 THEN does 1 ServerSocket.call_forward ns
  ELSE IF flags_are ns 1 0 0 1 &&& prev_eq ns 4 THEN does 1 ServerSocket.call_forward ns
  ELSE IF flags_are ns 1 0 1 1 &&& prev_ne ns 1 THEN does 1 ServerSocket.call_forward ns
  ELSE IF flags_are ns 0 1 0 0 &&& prev_ne ns 2 THEN does 2 ServerSocket.call_backward ns
  ELSE IF flags_are ns 0 1 1 0 &&& prev_eq ns 3 THEN does 2 ServerSocket.call_backward ns
  ELSE IF flags_are ns 0 1 0 1 &&& prev_eq ns 4 THEN does 2 ServerSocket.call_backward ns
  ELSE IF flags_are ns 0 1 1 1 &&& prev_ne ns 2 THEN does 2 ServerSocket.call_backward ns
  ELSE IF flags_are ns 0 0 1 0 &&& prev_ne ns 3 THEN does 3 ServerSocket.call_left ns
  ELSE IF flags_are ns 1 1 1 0 &&& prev_ne ns 3 THEN does 3 ServerSocket.call_left ns
  ELSE IF flags_are ns 0 0 0 1 &&& prev_ne ns 4 THEN does 4 ServerSocket.call_right ns
  ELSE IF flags_are ns 1 1 0 1 &&& prev_ne ns 4 THEN does 4 ServerSocket.call_right ns
  ELSE Ok (Outcome ns [] true).

(** *** [socketThread.run] of [server.py] (lines 150-200) *)

(** An assignment to a [global] name binds it in the module namespace. *)
Definition set_forwardvar (v : Z) (ns : namespace) : namespace :=
  Namespace (previousstate ns) (Some v) (backwardvar ns) (leftvar ns) (rightvar ns)
            (exit_program ns).
Definition set_backwardvar (v : Z) (ns : namespace) : namespace :=
  Namespace (previousstate ns) (forwardvar ns) (Some v) (leftvar ns) (rightvar ns)
            (exit_program ns).
Definition set_leftvar (v : Z) (ns : namespace) : namespace :=
  Namespace (previousstate ns) (forwardvar ns) (backwardvar ns) (Some v) (rightvar ns)
            (exit_program ns).
Definition set_rightvar (v : Z) (ns : namespace) : namespace :=
  Namespace (previousstate ns) (forwardvar ns) (backwardvar ns) (leftvar ns) (Some v)
            (exit_program ns).
Definition set_exit_program (v : Z) (ns : namespace) : namespace :=
  Namespace (previousstate ns) (forwardvar ns) (backwardvar ns) (leftvar ns)
            (rightvar ns) (Some v).

(** The chain of lines 166-194 on one decoded message; it only assigns, so
    it cannot stop on an unbound name. *)
Definition receive (decoded_data : string) (ns : namespace) : namespace * bool :=
  if String.eqb decoded_data "exit" then (set_exit_program 1 ns, true)
  else if String.eqb decoded_data "'w' press" then (set_forwardvar 1 ns, false)
  else if String.eqb decoded_data "'w' release" then (set_forwardvar 0 ns, false)
  else if String.eqb decoded_data "'a' press" then (set_leftvar 1 ns, false)
  else if String.eqb decoded_data "'a' release" then (set_leftvar 0 ns, false)
  else if String.eqb decoded_data "'s' press" then (set_backwardvar 1 ns, false)
  else if String.eqb decoded_data "'s' release" then (set_backwardvar 0 ns, false)
  else if String.eqb decoded_data "'d' press" then (set_rightvar 1 ns, false)
  else if String.eqb decoded_data "'d' release" then (set_rightvar 0 ns, false)
  else (ns, false).

Definition feed (msgs : list string) (ns : namespace) : namespace :=
  fold_left (fun ns d => fst (receive d ns)) msgs ns.

(** The handler of the bare [except] (lines 195-200): [true] is the [break],
    [false] the [pass] that goes round to [accept]. *)
Definition except_handler (ns : namespace) : result bool :=
  IF eq "exit_program" (exit_program ns) 1 THEN Ok true ELSE Ok false.

End ServerPy.

(** ** [Client/ClientSocket.py] *)

(** The keyboard client.  [pynput] hands the callbacks a key object; all they
    use of it is its rendering by ['%s' % key], which is the argument here
    (for a character key the character in single quotes, as in ['w']). *)

Module Client.

(** [on_key_press] (lines 20-24): the message sent. *)
Definition on_key_press (key : string) : string :=
  String.append key " press".

(** [on_key_release] (lines 8-16): the message sent. *)
Definition on_key_release (key : string) : string :=
  let exit_key := key in
  if String.eqb exit_key "'+'" then "exit"
  else String.append key " release".

(** The flag of the socket server that belongs to a key, by the key's
    rendering. *)
Definition flag_setter (key : string)
  : option (Z -> ServerSocket.globals -> ServerSocket.globals) :=
  if String.eqb key "'w'" then Some ServerSocket.set_forwardvar
  else if String.eqb key "'a'" then Some ServerSocket.set_leftvar
  else if String.eqb key "'s'" then Some ServerSocket.set_backwardvar
  else if String.eqb key "'d'" then Some ServerSocket.set_rightvar
  else None.

(** The globals after a key's flag has been written, unchanged for a key
    that has no flag. *)
Definition write_flag (key : string) (v : Z) (g : ServerSocket.globals)
  : ServerSocket.globals :=
  match flag_setter key with
  | Some set => set v g
  | None => g
  end.

End Client.

(** ** [webapp/main.py] *)

Module Webapp.

(** *** Python values and strings *)

(** [str.lower()] on ASCII text: the letters [A]..[Z] go to [a]..[z], every
    other character below 128 stays.  (On characters outside ASCII Python
    follows the Unicode tables, which are not modelled; statements that
    depend on the lower-cased text ask for [is_ascii].) *)
Definition lower_char (c : ascii) : ascii :=
  let n := N_of_ascii c in
  if ((65 <=? n) && (n <=? 90))%N then ascii_of_N (n + 32) else c.

Fixpoint lower (s : string) : string :=
  match s with
  | EmptyString => EmptyString
  | String c s' => String (lower_char c) (lower s')
  end.

Fixpoint is_ascii (s : string) : bool :=
  match s with
  | EmptyString => true
  | String c s' => (N_of_ascii c <? 128)%N && is_ascii s'
  end.

(** A value found in a decoded JSON object, as far as [control_ws] can tell
    values apart: it compares them with string literals and takes their
    [str()].  [POther r] is a number, a list or a nested object whose
    [str()] is [r]. *)
Inductive pyval : Type :=
| PNone
| PBool (b : bool)
| PStr (s : string)
| POther (rendering : string).

(** [str(v)] *)
Definition str (v : pyval) : string :=
  match v with
  | PNone => "None"
  | PBool true => "True"
  | PBool false => "False"
  | PStr s => s
  | POther r => r
  end.

(** [v == "literal"]: only a string equals a string. *)
Definition eq_literal (v : pyval) (lit : string) : bool :=
  match v with
  | PStr s => String.eqb s lit
  | _ => false
  end.

(** A decoded JSON object: a Python dict with string keys, as an
    association list read from the front. *)
Definition dict : Type := list (string * pyval).

(** [d.get(key, default)]; [d.get(key)] is [get d key PNone]. *)
Fixpoint get (d : dict) (key : string) (default : pyval) : pyval :=
  match d with
  | [] => default
  | (k, v) :: d' => if String.eqb k key then v else get d' key default
  end.

(** One received text frame, by what [json.loads(raw)] does with it
    (lines 161-166): it raises [JSONDecodeError] ([NotJson], the frame's text
    kept), or returns an object, or returns a value that is not an object. *)
Inductive frame : Type :=
| NotJson (raw : string)
| JsonObject (data : dict)
| JsonOther.

(** What is sent with [ws.send_json]. *)
#[warnings="-register-all"] Inductive json : Type :=
| JBool (b : bool)
| JString (s : string)
| JObject (fields : list (string * json)).

(** *** The controller (lines 11-53) *)

Inductive method : Type :=
| m_forward | m_backward | m_left | m_right | m_stop.

Definition name (m : method) : string :=
  match m with
  | m_forward => "forward"
  | m_backward => "backward"
  | m_left => "left"
  | m_right => "right"
  | m_stop => "stop"
  end.

(** [MockRobotController]: the last command logged and the lines printed. *)
Record MockRobotController : Type := Mock
  { last_cmd : string; printed : list string }.

Definition new_controller : MockRobotController := Mock "stop" [].

(** [_log] (lines 34-37) *)
Definition log (cmd : string) (c : MockRobotController) : MockRobotController :=
  if negb (String.eqb cmd (last_cmd c))
  then Mock cmd (printed c ++ [String.append "[MOCK ROBOT] " cmd])
  else c.

(** *** [ControlState] (lines 120-133) *)

Record ControlState : Type := Control
  { forward : bool; backward : bool; left : bool; right : bool }.

Definition new_state : ControlState := Control false false false false.

Definition to_dict (st : ControlState) : json :=
  JObject [ ("forward", JBool (forward st)); ("backward", JBool (backward st))
          ; ("left", JBool (left st)); ("right", JBool (right st)) ].

(** The module-level [controller] and [state], the methods invoked on the
    controller so far (oldest first), and the messages sent on the
    websocket so far. *)
Record world : Type := World
  { state : ControlState
  ; controller : MockRobotController
  ; invoked : list method
  ; sent : list json }.

Definition boot : world := World new_state new_controller [] [].

Definition set_state (st : ControlState) (w : world) : world :=
  World st (controller w) (invoked w) (sent w).

(** [controller.m()] *)
Definition invoke (m : method) (w : world) : world :=
  World (state w) (log (name m) (controller w)) (invoked w ++ [m]) (sent w).

(** [await ws.send_json(msg)] *)
Definition send_json (msg : json) (w : world) : world :=
  World (state w) (controller w) (invoked w) (sent w ++ [msg]).

(** *** [apply_state] (lines 141-152) *)
Definition apply_state (w : world) : world :=
  let st := state w in
  if forward st && negb (backward st) then invoke m_forward w
  else if backward st && negb (forward st) then invoke m_backward w
  else if left st && negb (right st) && negb (forward st) && negb (backward st)
    then invoke m_left w
  else if right st && negb (left st) && negb (forward st) && negb (backward st)
    then invoke m_right w
  else invoke m_stop w.

(** *** [control_ws] (lines 155-205) *)

Definition hello_msg (st : ControlState) : json :=
  JObject [("type", JString "hello"); ("state", to_dict st)].
Definition state_msg (st : ControlState) : json :=
  JObject [("type", JString "state"); ("state", to_dict st)].
Definition error_msg : json :=
  JObject [("type", JString "error"); ("message", JString "unknown message")].

(** After [ws.accept()]: the greeting of line 159. *)
Definition connect (w : world) : world := send_json (hello_msg (state w)) w.

(** The branch [msg_type == "key"] (lines 171-183). *)
Definition on_key (data : dict) (w : world) : world :=
  let key := lower (str (get data "key" (PStr ""))) in
  let action := get data "action" PNone in
  let is_down := eq_literal action "down" in
  let st := state w in
  let w1 :=
    if String.eqb key "w"
      then set_state (Control is_down (backward st) (left st) (right st)) w
    else if String.eqb key "s"
      then set_state (Control (forward st) is_down (left st) (right st)) w
    else if String.eqb key "a"
      then set_state (Control (forward st) (backward st) is_down (right st)) w
    else if String.eqb key "d"
      then set_state (Control (forward st) (backward st) (left st) is_down) w
    else w in
  let w2 := apply_state w1 in
  send_json (state_msg (state w2)) w2.

(** The branch [msg_type == "command"] (lines 186-198). *)
Definition on_command (data : dict) (w : world) : world :=
  let cmd := lower (str (get data "cmd" (PStr ""))) in
  let w1 :=
    if String.eqb cmd "forward" then set_state (Control true false false false) w
    else if String.eqb cmd "backward" then set_state (Control false true false false) w
    else if String.eqb cmd "left" then set_state (Control false false true false) w
    else if String.eqb cmd "right" then set_state (Control false false false true) w
    else if String.eqb cmd "stop" then set_state (Control false false false false) w
    else w in
  let w2 := apply_state w1 in
  send_json (state_msg (state w2)) w2.

(** How the handling of one frame ends: back at [receive_text] with the
    connection open, or with an exception that [control_ws] does not catch
    (it catches [WebSocketDisconnect] only) and that ends the handler. *)
Inductive status : Type :=
| Open (w : world)
| AttributeError (w : world).

(** Lines 168-201: the dispatch on [data.get("type")]. *)
Definition dispatch (data : dict) (w : world) : world :=
  let msg_type := get data "type" PNone in
  if eq_literal msg_type "key" then on_key data w
  else if eq_literal msg_type "command" then on_command data w
  else send_json error_msg w.

(** The body of the receive loop for one frame (lines 161-201). *)
Definition on_text (fr : frame) (w : world) : status :=
  match fr with
  | NotJson raw =>
      (* Support simple text commands too *)
      Open (dispatch [("type", PStr "command"); ("cmd", PStr raw)] w)
  | JsonObject data => Open (dispatch data w)
  | JsonOther =>
      (* [data.get] on a value that is not a dict *)
      AttributeError w
  end.

(** The handler of [WebSocketDisconnect] (lines 202-205). *)
Definition on_disconnect (w : world) : world :=
  (* Stop on disconnect to avoid runaway *)
  apply_state (set_state (Control false false false false) w).

(** The messages this server takes as its own: an object whose [type] is
    [key] or [command], and any text that is not JSON. *)
Definition taken (fr : frame) : bool :=
  match fr with
  | NotJson _ => true
  | JsonObject data =>
      eq_literal (get data "type" PNone) "key"
      || eq_literal (get data "type" PNone) "command"
  | JsonOther => false
  end.

(** The five command words. *)
Definition command_words : list string :=
  ["forward"; "backward"; "left"; "right"; "stop"].

Definition is_command_word (s : string) : bool :=
  existsb (String.eqb s) command_words.

(** Frames that name neither a key nor a command: text that is not JSON and
    spells none of the five command words, and objects whose [type] is neither
    [key] nor [command]. *)
Definition names_nothing (fr : frame) : bool :=
  match fr with
  | NotJson raw => is_ascii raw && negb (is_command_word (lower raw))
  | JsonObject data => negb (taken fr)
  | JsonOther => false
  end.

(** [{"type":"command","cmd":c}] *)
Definition command (c : string) : frame :=
  JsonObject [("type", PStr "command"); ("cmd", PStr c)].

(** The world a frame leaves behind, whichever way its handling ended. *)
Definition world_of (s : status) : world :=
  match s with Open w | AttributeError w => w end.

Definition is_open (s : status) : bool :=
  match s with Open _ => true | AttributeError _ => false end.

(** The flags as the integers of the socket server. *)
Definition flags_code (st : ControlState) : Z * Z * Z * Z :=
  (ServerSocket.code_of_flag (forward st), ServerSocket.code_of_flag (backward st),
   ServerSocket.code_of_flag (left st), ServerSocket.code_of_flag (right st)).

(** *** Sessions *)

(** The method [apply_state] invokes for given flags. *)
Definition chosen (st : ControlState) : method :=
  if forward st && negb (backward st) then m_forward
  else if backward st && negb (forward st) then m_backward
  else if left st && negb (right st) && negb (forward st) && negb (backward st)
    then m_left
  else if right st && negb (left st) && negb (forward st) && negb (backward st)
    then m_right
  else m_stop.

(** What happens on the endpoint [/ws/control]: a client connects, a text
    frame arrives, the client goes away. *)
Inductive ws_event : Type :=
| Connect
| Text (fr : frame)
| Disconnect.

Definition handle (w : world) (e : ws_event) : world :=
  match e with
  | Connect => connect w
  | Text fr => world_of (on_text fr w)
  | Disconnect => on_disconnect w
  end.

Definition session (es : list ws_event) (w : world) : world :=
  fold_left handle es w.

(** No two neighbours of a list of printed lines are the same line. *)
Fixpoint no_repeat_lines (l : list string) : Prop :=
  match l with
  | a :: (b :: _) as t => a <> b /\ no_repeat_lines t
  | _ => True
  end.

(** [{"type":"key","key":k,"action":"down"|"up"}] *)
Definition key_frame (k : string) (pressed : bool) : frame :=
  JsonObject [ ("type", PStr "key"); ("key", PStr k)
             ; ("action", PStr (if pressed then "down" else "up")) ].

(** The message the keyboard client sends for the same event of a character
    key. *)
Definition text_message (k : string) (pressed : bool) : string :=
  let key := String.append "'" (String.append k "'") in
  if pressed then Client.on_key_press key else Client.on_key_release key.

(** The controller method that stands for an actuator function of the socket
    server. *)
Definition method_of_call (c : ServerSocket.call) : method :=
  match c with
  | ServerSocket.call_clear => m_stop
  | ServerSocket.call_forward => m_forward
  | ServerSocket.call_backward => m_backward
  | ServerSocket.call_left => m_left
  | ServerSocket.call_right => m_right
  end.

Definition state_of_flags (fl : Spec.DirectionFlags) : ControlState :=
  Control (Spec.f_forward fl) (Spec.f_backward fl) (Spec.f_left fl) (Spec.f_right fl).

(** What a session keeps true of the controller. *)
Definition in_step (w : world) : Prop :=
  chosen (state w) = last (invoked w) m_stop
  /\ last_cmd (controller w)
     = name (last (invoked w) m_stop)
  /\ no_repeat_lines (printed (controller w))
  /\ (printed (controller w) = []
      \/ last (printed (controller w)) ""
         = String.append "[MOCK ROBOT] " (last_cmd (controller w))).

End Webapp.

(** ** Theorems *)

(** As [server.py] is written, the robot thread's first pass stops on the
    unbound name [exit_program] (line 74) before any rule is examined. *)
Lemma server_py_first_tick :
  ServerPy.tick ServerPy.at_start = ServerPy.NameError "exit_program".
Proof. reflexivity. Qed.

(** The engine of [ServerSocket.py] against the table: all 16 flag
    combinations and all 5 previous commands. *)
Lemma socket_server_tick_matches_table
      (fl : Spec.DirectionFlags) (prev : Spec.MotionCommand) :
  ServerSocket.tick (ServerSocket.holding fl prev) = ServerSocket.prescribed fl prev.
Proof. destruct fl as [[] [] [] []], prev; reflexivity. Qed.

Lemma server_py_feed_exit (msgs : list string) :
  forall ns : ServerPy.namespace,
    ServerPy.exit_program (ServerPy.feed msgs ns)
    = if existsb (String.eqb "exit") msgs then Some 1 else ServerPy.exit_program ns.
Proof.
  induction msgs as [|d msgs IH]; intros ns; [reflexivity|].
  change (ServerPy.feed (d :: msgs) ns)
    with (ServerPy.feed msgs (fst (ServerPy.receive d ns))).
  rewrite IH. cbn [existsb]. rewrite (String.eqb_sym "exit" d).
  unfold ServerPy.receive.
  destruct (String.eqb d "exit") eqn:He; cbn [orb].
  - destruct (existsb (String.eqb "exit") msgs); reflexivity.
  - repeat match goal with |- context [if String.eqb d ?l then _ else _] =>
      destruct (String.eqb d l); [reflexivity|] end.
    reflexivity.
Qed.

(** C1. For each of the 16 flag combinations and each of the 5 previous
    commands, one tick of [robotThread.run] of [ServerSocket.py] does exactly
    what the first matching row of the transition table prescribes: that
    row's actuator function is called once and its new previous command is
    recorded; when no row matches, nothing is called and the previous command
    stays.  The same chain in [server.py] is never reached: whatever messages
    have been received since the start, a pass there either stops with
    [NameError] on [exit_program] (no [exit] received yet) or is the shutdown
    pass (after [exit]).  So with ['w' press] received from rest, where the
    table and [ServerSocket.py] call [forward()] and record Forward,
    [server.py] calls nothing. *)
Theorem table_followed_by_ServerSocket_not_by_server_py :
  (forall (fl : Spec.DirectionFlags) (prev : Spec.MotionCommand),
      ServerSocket.tick (ServerSocket.holding fl prev) = ServerSocket.prescribed fl prev)
  /\ (forall msgs : list string,
         match ServerPy.tick (ServerPy.feed msgs ServerPy.at_start) with
         | ServerPy.NameError name =>
             name = "exit_program" /\ existsb (String.eqb "exit") msgs = false
         | ServerPy.Ok o =>
             ServerPy.goes_on o = false
             /\ ServerPy.issued o = [ServerSocket.call_clear]
             /\ existsb (String.eqb "exit") msgs = true
         end)
  /\ ServerSocket.tick (ServerSocket.feed ["'w' press"] ServerSocket.initial)
     = ServerSocket.prescribed (Spec.Flags true false false false) Spec.CmdNone
  /\ ServerSocket.issued
       (ServerSocket.prescribed (Spec.Flags true false false false) Spec.CmdNone)
     = [ServerSocket.call_forward]
  /\ ServerPy.forwardvar (ServerPy.feed ["'w' press"] ServerPy.at_start) = Some 1
  /\ ServerPy.tick (ServerPy.feed ["'w' press"] ServerPy.at_start)
     = ServerPy.NameError "exit_program".
Proof.
  split; [exact socket_server_tick_matches_table|].
  split; [|repeat split].
  intros msgs.
  pose proof (server_py_feed_exit msgs ServerPy.at_start) as Hx.
  unfold ServerPy.tick. rewrite Hx.
  destruct (existsb (String.eqb "exit") msgs); cbn; auto.
Qed.

(** C4. With [forward] held and the previous command Forward, the message
    ['a' press] makes the flags forward and left (backward and right stay
    clear), and the next tick on these flags calls no actuator function and
    leaves the previous command Forward.  (The flags 1,0,1,0 are those of row 6,
    which asks for the previous command Left; row 8 has flags 1,0,1,1.) *)
Theorem a_press_while_forward_holds :
  let g0 := ServerSocket.holding (Spec.Flags true false false false) Spec.CmdForward in
  let g1 := fst (ServerSocket.receive "'a' press" g0) in
  g1 = ServerSocket.holding (Spec.Flags true false true false) Spec.CmdForward
  /\ snd (ServerSocket.receive "'a' press" g0) = false
  /\ ServerSocket.tick g1 = ServerSocket.Outcome g1 [] true
  /\ ServerSocket.previousstate (ServerSocket.after (ServerSocket.tick g1)) = 1.
Proof.
  cbv zeta. repeat split.
Qed.

(** *** Shutdown *)

(** A received message never writes [previousstate], and never takes back a
    raised [exit_program]. *)
Lemma receive_keeps_previousstate (d : string) (g : ServerSocket.globals) :
  ServerSocket.previousstate (fst (ServerSocket.receive d g)) = ServerSocket.previousstate g.
Proof.
  unfold ServerSocket.receive.
  repeat (destruct (String.eqb d _); [reflexivity|]). reflexivity.
Qed.

Lemma receive_keeps_exit (d : string) (g : ServerSocket.globals) :
  ServerSocket.exit_program g = 1 ->
  ServerSocket.exit_program (fst (ServerSocket.receive d g)) = 1.
Proof.
  intros H. unfold ServerSocket.receive.
  repeat (destruct (String.eqb d _); [try exact H; reflexivity|]). exact H.
Qed.

(** The events of the socket thread touch neither the robot thread nor the
    record of actuator calls. *)
Lemma socket_event_frame (s : ServerSocket.system) (e : ServerSocket.event) :
  ServerSocket.is_tick e = false ->
  ServerSocket.calls (ServerSocket.step s e) = ServerSocket.calls s
  /\ ServerSocket.gpio (ServerSocket.step s e) = ServerSocket.gpio s
  /\ ServerSocket.robot_running (ServerSocket.step s e) = ServerSocket.robot_running s
  /\ ServerSocket.previousstate (ServerSocket.vars (ServerSocket.step s e))
     = ServerSocket.previousstate (ServerSocket.vars s)
  /\ (ServerSocket.exit_program (ServerSocket.vars s) = 1 ->
      ServerSocket.exit_program (ServerSocket.vars (ServerSocket.step s e)) = 1).
Proof.
  destruct e as [| |d|]; simpl; intros Ht; try discriminate.
  - destruct (ServerSocket.socket s); simpl; auto.
  - destruct (ServerSocket.socket s); simpl; auto.
    pose proof (receive_keeps_previousstate d (ServerSocket.vars s)) as Hp.
    pose proof (receive_keeps_exit d (ServerSocket.vars s)) as He.
    destruct (ServerSocket.receive d (ServerSocket.vars s)) as [g closed]; simpl in *.
    auto.
  - destruct (ServerSocket.socket s); simpl; auto.
Qed.

(** Once the robot thread has left its loop nothing calls the actuator. *)
Lemma stopped_robot_stays_silent (es : list ServerSocket.event) :
  forall s : ServerSocket.system,
    ServerSocket.robot_running s = false ->
    ServerSocket.calls (ServerSocket.run es s) = ServerSocket.calls s
    /\ ServerSocket.gpio (ServerSocket.run es s) = ServerSocket.gpio s
    /\ ServerSocket.robot_running (ServerSocket.run es s) = false
    /\ ServerSocket.previousstate (ServerSocket.vars (ServerSocket.run es s))
       = ServerSocket.previousstate (ServerSocket.vars s).
Proof.
  induction es as [|e es IH]; intros s Hr; [simpl; auto|].
  change (ServerSocket.run (e :: es) s) with (ServerSocket.run es (ServerSocket.step s e)).
  destruct (ServerSocket.is_tick e) eqn:Ht.
  - destruct e; try discriminate. simpl ServerSocket.step. rewrite Hr. auto.
  - destruct (socket_event_frame s e Ht) as (Hc & Hg & Hrr & Hp & _).
    destruct (IH (ServerSocket.step s e)) as (Hc' & Hg' & Hr' & Hp'); [congruence|].
    repeat split; congruence.
Qed.

(** With [exit_program] raised and the robot thread still looping, the first
    tick to come is the shutdown pass, and it is the last to call anything. *)
Lemma pending_shutdown (es : list ServerSocket.event) :
  forall s : ServerSocket.system,
    ServerSocket.robot_running s = true ->
    ServerSocket.exit_program (ServerSocket.vars s) = 1 ->
    ServerSocket.calls (ServerSocket.run es s)
    = ServerSocket.calls s
      ++ (if existsb ServerSocket.is_tick es then [ServerSocket.call_clear] else [])
    /\ (existsb ServerSocket.is_tick es = true ->
        ServerSocket.previousstate (ServerSocket.vars (ServerSocket.run es s)) = 0
        /\ ServerSocket.robot_running (ServerSocket.run es s) = false).
Proof.
  induction es as [|e es IH]; intros s Hr He.
  - simpl. rewrite app_nil_r. split; [reflexivity|discriminate].
  - change (ServerSocket.run (e :: es) s) with (ServerSocket.run es (ServerSocket.step s e)).
    simpl existsb. destruct (ServerSocket.is_tick e) eqn:Ht; simpl orb.
    + destruct e; try discriminate. clear IH.
      assert (Hs : ServerSocket.step s ServerSocket.RobotTick
                   = ServerSocket.System
                       (ServerSocket.set_previousstate 0 (ServerSocket.vars s))
                       (ServerSocket.clear (ServerSocket.gpio s)) false
                       (ServerSocket.socket s)
                       (ServerSocket.calls s ++ [ServerSocket.call_clear])).
      { simpl. rewrite Hr. unfold ServerSocket.tick. rewrite He. reflexivity. }
      rewrite Hs.
      match goal with |- context [ServerSocket.run es ?x] =>
        destruct (stopped_robot_stays_silent es x eq_refl) as (Hc & _ & Hrr & Hp)
      end.
      rewrite Hc, Hp, Hrr. simpl. auto.
    + destruct (socket_event_frame s e Ht) as (Hc & _ & Hrr & _ & Hex).
      destruct (IH (ServerSocket.step s e)) as (Hc' & Hq); [congruence|auto|].
      rewrite Hc', Hc. auto.
Qed.

(** C5. When [exit] is received on a served connection while the robot thread
    is running, then whatever the two threads do next (new connections and
    key messages included): the record of actuator calls grows by nothing
    until the robot thread's next pass and by exactly one [clear()] from then
    on, and after that pass the previous command is 0 (none) and the robot
    thread has left its loop. *)
Theorem exit_stops_once_and_for_all :
  forall s : ServerSocket.system,
    ServerSocket.robot_running s = true ->
    ServerSocket.socket s = ServerSocket.Serving ->
    forall es : list ServerSocket.event,
      let s' := ServerSocket.run es (ServerSocket.step s (ServerSocket.Recv "exit")) in
      ServerSocket.calls s'
      = ServerSocket.calls s
        ++ (if existsb ServerSocket.is_tick es then [ServerSocket.call_clear] else [])
      /\ (existsb ServerSocket.is_tick es = true ->
          ServerSocket.previousstate (ServerSocket.vars s') = 0
          /\ ServerSocket.robot_running s' = false).
Proof.
  intros s Hr Hs es.
  assert (Hx : ServerSocket.step s (ServerSocket.Recv "exit")
               = ServerSocket.System
                   (ServerSocket.set_exit_program 1 (ServerSocket.vars s))
                   (ServerSocket.gpio s) (ServerSocket.robot_running s)
                   ServerSocket.Accepting (ServerSocket.calls s)).
  { simpl. rewrite Hs. reflexivity. }
  cbv zeta. rewrite Hx.
  match goal with |- context [ServerSocket.run es ?x] =>
    exact (pending_shutdown es x Hr eq_refl)
  end.
Qed.

(** After [exit]: a pass of the robot thread, then a new connection whose key
    messages raise the forward and left flags, then two more scheduled passes.
    One [clear()] in all. *)
Lemma exit_stops_once_and_for_all_witness :
  let s := ServerSocket.step
             (ServerSocket.boot (ServerSocket.Pins ServerSocket.LOW ServerSocket.LOW
                                                   ServerSocket.LOW ServerSocket.LOW))
             ServerSocket.Accept in
  let es := [ ServerSocket.RobotTick; ServerSocket.Accept
            ; ServerSocket.Recv "'w' press"; ServerSocket.RobotTick
            ; ServerSocket.Recv "'a' press"; ServerSocket.RobotTick ] in
  let s' := ServerSocket.run es (ServerSocket.step s (ServerSocket.Recv "exit")) in
  ServerSocket.flags_of (ServerSocket.vars s') = (1, 0, 1, 0)
  /\ ServerSocket.calls s' = [ServerSocket.call_clear]
  /\ ServerSocket.previousstate (ServerSocket.vars s') = 0
  /\ ServerSocket.robot_running s' = false.
Proof.
  cbv zeta.
  match goal with |- context [ServerSocket.run ?es (ServerSocket.step ?s _)] =>
    destruct (exit_stops_once_and_for_all s eq_refl eq_refl es) as [Hc Hq]
  end.
  split; [reflexivity|]. split; [exact Hc|]. exact (Hq eq_refl).
Defined.

(** *** The webapp: arbitration without a previous command *)

(** C10. [apply_state] invokes exactly one controller method, chosen from the
    four flags alone: [forward()] exactly when forward is held without
    backward, [backward()] exactly when backward is held without forward,
    [left()] / [right()] exactly when that turn is held and the other three
    flags are clear, and [stop()] in every remaining case; forward and
    backward held together always give [stop()], as do left and right held
    together when neither straight motion decides. *)
Theorem apply_state_straight_priority :
  forall (st : Webapp.ControlState) (c : Webapp.MockRobotController)
         (inv : list Webapp.method) (snt : list Webapp.json),
  exists m : Webapp.method,
    Webapp.apply_state (Webapp.World st c inv snt)
    = Webapp.World st (Webapp.log (Webapp.name m) c) (inv ++ [m]) snt
    /\ (m = Webapp.m_forward
        <-> Webapp.forward st = true /\ Webapp.backward st = false)
    /\ (m = Webapp.m_backward
        <-> Webapp.backward st = true /\ Webapp.forward st = false)
    /\ (m = Webapp.m_left
        <-> Webapp.left st = true /\ Webapp.right st = false
            /\ Webapp.forward st = false /\ Webapp.backward st = false)
    /\ (m = Webapp.m_right
        <-> Webapp.right st = true /\ Webapp.left st = false
            /\ Webapp.forward st = false /\ Webapp.backward st = false)
    /\ (m = Webapp.m_stop
        <-> Webapp.forward st = Webapp.backward st
            /\ (Webapp.forward st = true \/ Webapp.left st = Webapp.right st))
    /\ (Webapp.forward st && Webapp.backward st = true -> m = Webapp.m_stop)
    /\ (Webapp.left st && Webapp.right st = true ->
        Webapp.forward st = Webapp.backward st -> m = Webapp.m_stop).
Proof.
  intros [[] [] [] []] c inv snt; eexists;
    (split; [reflexivity|]); cbn;
    repeat split; intros; try discriminate; try congruence; intuition congruence.
Qed.

(** [apply_state] always ends in one controller method. *)
Lemma apply_state_invokes_one (w : Webapp.world) :
  exists m : Webapp.method, Webapp.apply_state w = Webapp.invoke m w.
Proof.
  unfold Webapp.apply_state. cbv zeta.
  repeat match goal with |- context [if ?b then _ else _] => destruct b end;
    eexists; reflexivity.
Qed.

Lemma apply_state_frame (w : Webapp.world) :
  Webapp.state (Webapp.apply_state w) = Webapp.state w
  /\ Webapp.sent (Webapp.apply_state w) = Webapp.sent w.
Proof.
  unfold Webapp.apply_state.
  repeat match goal with |- context [if ?b then _ else _] => destruct b end;
    split; reflexivity.
Qed.

(** Both accepted branches end the same way: the state is applied and then
    acknowledged. *)
Lemma on_key_sent (data : Webapp.dict) (w : Webapp.world) :
  Webapp.sent (Webapp.on_key data w)
  = Webapp.sent w ++ [Webapp.state_msg (Webapp.state (Webapp.on_key data w))].
Proof.
  unfold Webapp.on_key. cbv zeta.
  match goal with |- context [Webapp.apply_state ?x] =>
    destruct (apply_state_frame x) as [Hs Ht]; set (w1 := x) in *
  end.
  cbn [Webapp.send_json Webapp.sent Webapp.state]. rewrite Ht.
  subst w1.
  repeat match goal with |- context [if ?b then _ else _] => destruct b end;
    reflexivity.
Qed.

Lemma on_command_sent (data : Webapp.dict) (w : Webapp.world) :
  Webapp.sent (Webapp.on_command data w)
  = Webapp.sent w ++ [Webapp.state_msg (Webapp.state (Webapp.on_command data w))].
Proof.
  unfold Webapp.on_command. cbv zeta.
  match goal with |- context [Webapp.apply_state ?x] =>
    destruct (apply_state_frame x) as [Hs Ht]; set (w1 := x) in *
  end.
  cbn [Webapp.send_json Webapp.sent Webapp.state]. rewrite Ht.
  subst w1.
  repeat match goal with |- context [if ?b then _ else _] => destruct b end;
    reflexivity.
Qed.

Lemma dispatch_sent (data : Webapp.dict) (w : Webapp.world) :
  let w' := Webapp.dispatch data w in
  Webapp.sent w'
  = Webapp.sent w
    ++ [if Webapp.taken (Webapp.JsonObject data)
        then Webapp.state_msg (Webapp.state w') else Webapp.error_msg]
  /\ (Webapp.taken (Webapp.JsonObject data) = false ->
      Webapp.state w' = Webapp.state w /\ Webapp.invoked w' = Webapp.invoked w
      /\ Webapp.controller w' = Webapp.controller w).
Proof.
  cbv zeta. unfold Webapp.dispatch, Webapp.taken.
  destruct (Webapp.eq_literal (Webapp.get data "type" Webapp.PNone) "key").
  - split; [apply on_key_sent|discriminate].
  - destruct (Webapp.eq_literal (Webapp.get data "type" Webapp.PNone) "command").
    + split; [apply on_command_sent|discriminate].
    + split; [reflexivity|intros _; repeat split].
Qed.

(** The claim of C6 fails on text that is not JSON: ["not json"] is answered
    with a state acknowledgement, not with the error message. *)
Lemma not_json_is_acknowledged :
  Webapp.on_text (Webapp.NotJson "not json") Webapp.boot
  = Webapp.Open (Webapp.World Webapp.new_state Webapp.new_controller [Webapp.m_stop]
                              [Webapp.state_msg Webapp.new_state])
  /\ Webapp.state_msg Webapp.new_state <> Webapp.error_msg.
Proof.
  split; [reflexivity|discriminate].
Qed.

(** C6 (amended). The first message sent on a connection is the greeting with
    the current flags.  A frame that is an object of type [key] or [command],
    whatever its key or command, and every frame that is not JSON (it is read
    as a command), is answered with the state acknowledgement carrying the
    flags after the frame; an object of any other type is answered with
    exactly the error message, and changes neither the flags nor the
    controller. *)
Theorem replies_on_websocket :
  forall (fr : Webapp.frame) (w : Webapp.world),
    Webapp.sent (Webapp.connect w) = Webapp.sent w ++ [Webapp.hello_msg (Webapp.state w)]
    /\ match fr with
       | Webapp.JsonOther => True
       | _ =>
           exists w' : Webapp.world,
             Webapp.on_text fr w = Webapp.Open w'
             /\ Webapp.sent w'
                = Webapp.sent w
                  ++ [if Webapp.taken fr
                      then Webapp.state_msg (Webapp.state w') else Webapp.error_msg]
             /\ (if Webapp.taken fr then True
                 else Webapp.state w' = Webapp.state w
                      /\ Webapp.invoked w' = Webapp.invoked w
                      /\ Webapp.controller w' = Webapp.controller w)
       end.
Proof.
  intros fr w. split; [reflexivity|].
  destruct fr as [raw|data|]; [| |exact I].
  - eexists; split; [reflexivity|].
    split; [|exact I].
    exact (proj1 (dispatch_sent [("type", Webapp.PStr "command"); ("cmd", Webapp.PStr raw)] w)).
  - eexists; split; [reflexivity|].
    destruct (dispatch_sent data w) as [Hs Hf].
    split; [exact Hs|].
    destruct (Webapp.taken (Webapp.JsonObject data)); [exact I|exact (Hf eq_refl)].
Qed.

(** The claim of C7 fails on text that is not JSON but is a command word:
    [forward] is taken as the command and raises the forward flag. *)
Lemma bare_command_word_changes_flags :
  Webapp.on_text (Webapp.NotJson "forward") Webapp.boot
  = Webapp.Open
      (Webapp.World (Webapp.Control true false false false)
                    (Webapp.Mock "forward" ["[MOCK ROBOT] forward"])
                    [Webapp.m_forward]
                    [Webapp.state_msg (Webapp.Control true false false false)])
  /\ Webapp.state Webapp.boot = Webapp.Control false false false false
  /\ Webapp.Control true false false false <> Webapp.state Webapp.boot.
Proof.
  repeat split. discriminate.
Qed.

(** Text that spells no command word goes through the command branch
    without touching the flags. *)
Lemma dispatch_unknown_text (raw : string) (w : Webapp.world) :
  Webapp.is_command_word (Webapp.lower raw) = false ->
  Webapp.dispatch [("type", Webapp.PStr "command"); ("cmd", Webapp.PStr raw)] w
  = Webapp.send_json (Webapp.state_msg (Webapp.state w)) (Webapp.apply_state w).
Proof.
  intros Hw.
  unfold Webapp.is_command_word, Webapp.command_words in Hw. cbn [existsb] in Hw.
  repeat (apply orb_false_elim in Hw; destruct Hw as [? Hw]).
  unfold Webapp.dispatch. cbn [Webapp.get Webapp.eq_literal String.eqb Ascii.eqb Bool.eqb].
  cbv zeta. cbn match. unfold Webapp.on_command.
  cbn [Webapp.get Webapp.eq_literal Webapp.str String.eqb Ascii.eqb Bool.eqb].
  cbv zeta. cbn match.
  repeat match goal with H : String.eqb _ _ = false |- _ => rewrite H; clear H end.
  rewrite (proj1 (apply_state_frame w)). reflexivity.
Qed.

(** C7 (amended). A payload that is not JSON and, lower-cased, is none of the
    five command words (such as ["not json"]), and a JSON object whose type is
    neither [key] nor [command], leaves the four flags as they were and
    leaves the connection open: the handler answers (with the state
    acknowledgement for the text, after applying the unchanged state to the
    controller again, and with the error message for the object) and goes
    back to receiving. *)
Theorem unknown_payload_keeps_flags :
  forall (fr : Webapp.frame) (w : Webapp.world),
    Webapp.names_nothing fr = true ->
    exists w' : Webapp.world,
      Webapp.on_text fr w = Webapp.Open w'
      /\ Webapp.state w' = Webapp.state w
      /\ Webapp.sent w'
         = Webapp.sent w
           ++ [if Webapp.taken fr
               then Webapp.state_msg (Webapp.state w) else Webapp.error_msg].
Proof.
  intros [raw|data|] w Hn; cbn [Webapp.names_nothing] in Hn; [| |discriminate].
  - apply andb_prop in Hn. destruct Hn as [_ Hn]. apply negb_true_iff in Hn.
    eexists. split; [cbn [Webapp.on_text]; rewrite (dispatch_unknown_text raw w Hn); reflexivity|].
    destruct (apply_state_frame w) as [Hs Ht].
    cbn [Webapp.send_json Webapp.state Webapp.sent Webapp.taken]. rewrite Ht. auto.
  - apply negb_true_iff in Hn.
    destruct (dispatch_sent data w) as [Hs Hf]. rewrite Hn in Hs.
    destruct (Hf Hn) as (Hst & _ & _).
    eexists. split; [reflexivity|]. rewrite Hn. split; [exact Hst|exact Hs].
Qed.

Lemma unknown_payload_keeps_flags_witness :
  exists w' : Webapp.world,
    Webapp.on_text (Webapp.NotJson "not json") Webapp.boot = Webapp.Open w'
    /\ Webapp.state w' = Webapp.state Webapp.boot
    /\ Webapp.sent w'
       = Webapp.sent Webapp.boot ++ [Webapp.state_msg (Webapp.state Webapp.boot)].
Proof.
  apply (unknown_payload_keeps_flags (Webapp.NotJson "not json") Webapp.boot).
  reflexivity.
Defined.

(** *** Drop and reconnect *)

(** A tick writes [previousstate] and nothing else. *)
Lemma tick_frame (g : ServerSocket.globals) :
  ServerSocket.flags_of (ServerSocket.after (ServerSocket.tick g)) = ServerSocket.flags_of g
  /\ ServerSocket.exit_program (ServerSocket.after (ServerSocket.tick g))
     = ServerSocket.exit_program g.
Proof.
  unfold ServerSocket.tick. cbv zeta. unfold ServerSocket.cleanup.
  repeat match goal with |- context [if ?b then _ else _] => destruct b end;
    split; reflexivity.
Qed.

(** Nothing but a received message writes the flags or [exit_program]: not a
    tick, not an [accept], not an exception. *)
Lemma only_recv_writes_flags (es : list ServerSocket.event) :
  forall s : ServerSocket.system,
    existsb ServerSocket.is_recv es = false ->
    ServerSocket.flags_of (ServerSocket.vars (ServerSocket.run es s))
    = ServerSocket.flags_of (ServerSocket.vars s)
    /\ ServerSocket.exit_program (ServerSocket.vars (ServerSocket.run es s))
       = ServerSocket.exit_program (ServerSocket.vars s).
Proof.
  induction es as [|e es IH]; intros s Hn; [split; reflexivity|].
  change (ServerSocket.run (e :: es) s) with (ServerSocket.run es (ServerSocket.step s e)).
  cbn [existsb] in Hn. apply orb_false_elim in Hn. destruct Hn as [He Hn].
  destruct (IH (ServerSocket.step s e) Hn) as [Hf Hx]. rewrite Hf, Hx. clear IH Hf Hx.
  destruct e as [| |d|]; try discriminate; cbn [ServerSocket.step].
  - destruct (ServerSocket.robot_running s); [|split; reflexivity].
    cbn [ServerSocket.vars]. apply tick_frame.
  - destruct (ServerSocket.socket s); split; reflexivity.
  - destruct (ServerSocket.socket s); split; reflexivity.
Qed.

(** The claim of C8 fails in the webapp: with forward held, a disconnect
    clears the flag, and the next connection is greeted with all four flags
    clear. *)
Lemma webapp_disconnect_resets_flags :
  let w := Webapp.world_of (Webapp.on_text (Webapp.command "forward")
                                           (Webapp.connect Webapp.boot)) in
  let w' := Webapp.connect (Webapp.on_disconnect w) in
  Webapp.state w = Webapp.Control true false false false
  /\ Webapp.state (Webapp.on_disconnect w) = Webapp.Control false false false false
  /\ Webapp.state w' <> Webapp.state w
  /\ last (Webapp.sent w') Webapp.error_msg
     = Webapp.hello_msg (Webapp.Control false false false false).
Proof.
  cbv zeta. repeat split. discriminate.
Qed.

(** C8 (amended). In the socket server, when the served connection drops (an
    exception in [recv]) before any [exit], the flags are not written: the
    socket thread goes back to [accept], the next accepted connection is
    served from the globals as they were, and no run of ticks, drops and
    accepts changes the flags.  In the webapp the disconnect handler clears
    all four flags and calls [stop()], so the next connection is greeted with
    the flags clear. *)
Theorem flags_across_reconnect :
  forall (s : ServerSocket.system) (es : list ServerSocket.event) (w : Webapp.world),
    ServerSocket.socket s = ServerSocket.Serving ->
    ServerSocket.exit_program (ServerSocket.vars s) <> 1 ->
    existsb ServerSocket.is_recv es = false ->
    ServerSocket.vars (ServerSocket.step s ServerSocket.Raise) = ServerSocket.vars s
    /\ ServerSocket.socket (ServerSocket.step s ServerSocket.Raise) = ServerSocket.Accepting
    /\ ServerSocket.vars (ServerSocket.run [ServerSocket.Raise; ServerSocket.Accept] s)
       = ServerSocket.vars s
    /\ ServerSocket.socket (ServerSocket.run [ServerSocket.Raise; ServerSocket.Accept] s)
       = ServerSocket.Serving
    /\ ServerSocket.flags_of (ServerSocket.vars (ServerSocket.run es s))
       = ServerSocket.flags_of (ServerSocket.vars s)
    /\ Webapp.state (Webapp.on_disconnect w) = Webapp.Control false false false false
    /\ Webapp.invoked (Webapp.on_disconnect w) = Webapp.invoked w ++ [Webapp.m_stop]
    /\ Webapp.sent (Webapp.connect (Webapp.on_disconnect w))
       = Webapp.sent w ++ [Webapp.hello_msg (Webapp.Control false false false false)].
Proof.
  intros s es w Hs Hx Hn.
  apply Z.eqb_neq in Hx.
  assert (Hr : ServerSocket.step s ServerSocket.Raise
               = ServerSocket.System (ServerSocket.vars s) (ServerSocket.gpio s)
                   (ServerSocket.robot_running s) ServerSocket.Accepting
                   (ServerSocket.calls s)).
  { cbn [ServerSocket.step]. rewrite Hs, Hx. reflexivity. }
  unfold ServerSocket.run at 1 2. cbn [fold_left]. rewrite Hr.
  repeat split.
  exact (proj1 (only_recv_writes_flags es s Hn)).
Qed.

(** A session of the socket server: [w] and [a] pressed, two ticks, the
    connection drops, a tick, a new connection. *)
Lemma flags_across_reconnect_witness :
  let s := ServerSocket.run
             [ ServerSocket.Accept; ServerSocket.Recv "'w' press"
             ; ServerSocket.RobotTick; ServerSocket.Recv "'a' press" ]
             (ServerSocket.boot (ServerSocket.Pins ServerSocket.LOW ServerSocket.LOW
                                                   ServerSocket.LOW ServerSocket.LOW)) in
  let es := [ ServerSocket.RobotTick; ServerSocket.Raise
            ; ServerSocket.RobotTick; ServerSocket.Accept ] in
  ServerSocket.flags_of (ServerSocket.vars s) = (1, 0, 1, 0)
  /\ ServerSocket.socket (ServerSocket.run [ServerSocket.Raise; ServerSocket.Accept] s)
     = ServerSocket.Serving
  /\ ServerSocket.flags_of (ServerSocket.vars (ServerSocket.run es s))
     = ServerSocket.flags_of (ServerSocket.vars s)
  /\ Webapp.state (Webapp.on_disconnect Webapp.boot) = Webapp.Control false false false false.
Proof.
  intros s es.
  destruct (flags_across_reconnect s es Webapp.boot) as (_ & _ & _ & H4 & H5 & H6 & _);
    [reflexivity | vm_compute; discriminate | reflexivity |].
  split; [reflexivity|]. split; [exact H4|]. split; [exact H5|exact H6].
Defined.

(** *** Commands and key messages *)

(** Releases of the keys other than [w] leave the forward flag alone and clear
    the flag of every key they name. *)
Lemma feed_other_releases (rel : list string) :
  forall g : ServerSocket.globals,
    Forall (fun d => In d ServerSocket.other_releases) rel ->
    ServerSocket.forwardvar (ServerSocket.feed rel g) = ServerSocket.forwardvar g
    /\ (ServerSocket.backwardvar g = 0 \/ In "'s' release" rel ->
        ServerSocket.backwardvar (ServerSocket.feed rel g) = 0)
    /\ (ServerSocket.leftvar g = 0 \/ In "'a' release" rel ->
        ServerSocket.leftvar (ServerSocket.feed rel g) = 0)
    /\ (ServerSocket.rightvar g = 0 \/ In "'d' release" rel ->
        ServerSocket.rightvar (ServerSocket.feed rel g) = 0).
Proof.
  induction rel as [|d rel IH]; intros g Hall.
  - cbn. repeat split; intros [H|[]]; exact H.
  - inversion Hall as [|? ? Hd Hrest]; subst.
    change (ServerSocket.feed (d :: rel) g)
      with (ServerSocket.feed rel (fst (ServerSocket.receive d g))).
    destruct Hd as [<-|[<-|[<-|[]]]];
      match goal with |- context [ServerSocket.receive ?m g] =>
        destruct (IH (fst (ServerSocket.receive m g)) Hrest) as (Hf & Hb & Hl & Hr)
      end; cbn [ServerSocket.receive String.eqb Ascii.eqb Bool.eqb fst] in *;
      cbn in Hf, Hb, Hl, Hr;
      (split; [exact Hf|]);
      (split; [intros [H|[H|H]]; try discriminate H; apply Hb; auto|]);
      (split; [intros [H|[H|H]]; try discriminate H; apply Hl; auto|]);
      (intros [H|[H|H]]; try discriminate H; apply Hr; auto).
Qed.

(** C9. The message [{"type":"command","cmd":"forward"}] leaves forward set
    and the other three flags clear whatever the flags were before, and so
    does each of [backward], [left], [right] for its own flag, [stop] clearing
    all four.  On the text protocol the same flags result from ['w' press]
    followed by the releases of the other keys that were held. *)
Theorem command_overrides_flags :
  forall (w : Webapp.world) (g : ServerSocket.globals) (rel : list string),
    Forall (fun d => In d ServerSocket.other_releases) rel ->
    (ServerSocket.backwardvar g = 0 \/ In "'s' release" rel) ->
    (ServerSocket.leftvar g = 0 \/ In "'a' release" rel) ->
    (ServerSocket.rightvar g = 0 \/ In "'d' release" rel) ->
    let flags_after c :=
      Webapp.state (Webapp.world_of (Webapp.on_text (Webapp.command c) w)) in
    flags_after "forward" = Webapp.Control true false false false
    /\ flags_after "backward" = Webapp.Control false true false false
    /\ flags_after "left" = Webapp.Control false false true false
    /\ flags_after "right" = Webapp.Control false false false true
    /\ flags_after "stop" = Webapp.Control false false false false
    /\ ServerSocket.flags_of (ServerSocket.feed ("'w' press" :: rel) g) = (1, 0, 0, 0)
    /\ ServerSocket.flags_of (ServerSocket.feed ("'w' press" :: rel) g)
       = Webapp.flags_code (flags_after "forward").
Proof.
  intros w g rel Hall Hb Hl Hr. cbv zeta.
  assert (Ht : ServerSocket.flags_of (ServerSocket.feed ("'w' press" :: rel) g) = (1, 0, 0, 0)).
  { change (ServerSocket.feed ("'w' press" :: rel) g)
      with (ServerSocket.feed rel (ServerSocket.set_forwardvar 1 g)).
    destruct (feed_other_releases rel (ServerSocket.set_forwardvar 1 g) Hall)
      as (Hf' & Hb' & Hl' & Hr').
    unfold ServerSocket.flags_of.
    rewrite Hf', (Hb' Hb), (Hl' Hl), (Hr' Hr). reflexivity. }
  repeat split; try exact Ht.
Qed.

(** From backward and right held: [w] pressed, then [d] and [s] released. *)
Lemma command_overrides_flags_witness :
  let w := Webapp.World (Webapp.Control false true false true)
                        (Webapp.Mock "backward" []) [Webapp.m_backward] [] in
  let g := ServerSocket.Globals 2 0 1 0 1 0 in
  Webapp.state (Webapp.world_of (Webapp.on_text (Webapp.command "forward") w))
  = Webapp.Control true false false false
  /\ ServerSocket.flags_of
       (ServerSocket.feed ["'w' press"; "'d' release"; "'s' release"] g)
     = Webapp.flags_code
         (Webapp.state (Webapp.world_of (Webapp.on_text (Webapp.command "forward") w))).
Proof.
  intros w g.
  destruct (command_overrides_flags w g ["'d' release"; "'s' release"])
    as (H1 & _ & _ & _ & _ & _ & H7).
  - repeat (apply Forall_cons || apply Forall_nil); cbn; auto 6.
  - right; cbn; auto.
  - left; reflexivity.
  - right; cbn; auto.
  - split; [exact H1|exact H7].
Defined.

(** *** No redundant re-issuance *)

(** Reads the test of the branch taken: what it says of [previousstate]. *)
Ltac read_prev_test :=
  match goal with
  | H : (_ && _)%bool = true |- _ =>
      apply andb_prop in H; destruct H as [_ H]; unfold ServerSocket.neq in H;
      first [ apply negb_true_iff in H; apply Z.eqb_neq in H
            | apply Z.eqb_eq in H ]
  end.

(** Whatever the integers in the globals, a pass that is not the shutdown pass
    calls an actuator function only for a command other than the recorded one,
    and records the command it called for. *)
Lemma tick_never_reissues (g : ServerSocket.globals) (c : ServerSocket.call) :
  ServerSocket.exit_program g <> 1 ->
  In c (ServerSocket.issued (ServerSocket.tick g)) ->
  ServerSocket.code_of_call c <> ServerSocket.previousstate g
  /\ ServerSocket.previousstate (ServerSocket.after (ServerSocket.tick g))
     = ServerSocket.code_of_call c
  /\ ServerSocket.issued (ServerSocket.tick g) = [c].
Proof.
  intros Hx. apply Z.eqb_neq in Hx.
  unfold ServerSocket.tick. rewrite Hx. cbv zeta.
  repeat (match goal with |- context [if ?b then _ else _] => destruct b eqn:? end;
          cbv iota);
    cbn [ServerSocket.issued ServerSocket.after In ServerSocket.set_previousstate
         ServerSocket.previousstate];
    intros Hin; first [destruct Hin as [<-|[]] | destruct Hin];
    cbn [ServerSocket.code_of_call]; read_prev_test;
    (split; [congruence|split; reflexivity]).
Qed.

(** The claim of C2 fails in the webapp, which is among the arbitration steps
    it covers: the same command sent twice invokes [controller.forward()]
    twice, the second time with [forward] already the controller's recorded
    last command. *)
Lemma webapp_reissues_same_command :
  let w1 := Webapp.world_of (Webapp.on_text (Webapp.command "forward") Webapp.boot) in
  let w2 := Webapp.world_of (Webapp.on_text (Webapp.command "forward") w1) in
  Webapp.invoked w1 = [Webapp.m_forward]
  /\ Webapp.last_cmd (Webapp.controller w1) = Webapp.name Webapp.m_forward
  /\ Webapp.invoked w2 = [Webapp.m_forward; Webapp.m_forward].
Proof.
  cbv zeta. repeat split.
Qed.

(** C2 (amended). In the socket server, for every state of the globals, a pass
    of the engine other than the shutdown pass calls an actuator function only
    when its command differs from the recorded previous command, and every row
    of the transition table has a precondition that excludes its own new
    previous command.  The webapp records no previous command: every call of
    [apply_state] invokes one controller method, whatever was invoked
    before. *)
Theorem no_redundant_reissue_in_socket_server :
  forall (g : ServerSocket.globals) (c : ServerSocket.call) (w : Webapp.world),
    ServerSocket.exit_program g <> 1 ->
    In c (ServerSocket.issued (ServerSocket.tick g)) ->
    ServerSocket.code_of_call c <> ServerSocket.previousstate g
    /\ ServerSocket.previousstate (ServerSocket.after (ServerSocket.tick g))
       = ServerSocket.code_of_call c
    /\ forallb (fun r => negb (Spec.holds (Spec.r_prev r) (Spec.r_new r))) Spec.table = true
    /\ exists m : Webapp.method,
         Webapp.invoked (Webapp.apply_state w) = Webapp.invoked w ++ [m].
Proof.
  intros g c w Hx Hin.
  destruct (tick_never_reissues g c Hx Hin) as (H1 & H2 & _).
  split; [exact H1|]. split; [exact H2|]. split; [reflexivity|].
  destruct (apply_state_invokes_one w) as [m Hm].
  exists m. rewrite Hm. reflexivity.
Qed.

(** The engine at rest with [forward] just raised calls [forward()]. *)
Lemma no_redundant_reissue_in_socket_server_witness :
  let g := ServerSocket.holding (Spec.Flags true false false false) Spec.CmdNone in
  ServerSocket.issued (ServerSocket.tick g) = [ServerSocket.call_forward]
  /\ ServerSocket.code_of_call ServerSocket.call_forward <> ServerSocket.previousstate g
  /\ ServerSocket.previousstate (ServerSocket.after (ServerSocket.tick g)) = 1.
Proof.
  intros g.
  destruct (no_redundant_reissue_in_socket_server g ServerSocket.call_forward Webapp.boot)
    as (H1 & H2 & _).
  - vm_compute; discriminate.
  - left; reflexivity.
  - split; [reflexivity|]. split; [exact H1|exact H2].
Defined.

(** *** Idempotence *)

(** The claim of C3 fails where the first tick matches no row: with no flag
    held and no previous command the two ticks make no call at all. *)
Lemma idle_engine_makes_no_call :
  let g := ServerSocket.holding (Spec.Flags false false false false) Spec.CmdNone in
  let o1 := ServerSocket.tick g in
  let o2 := ServerSocket.tick (ServerSocket.after o1) in
  ServerSocket.issued o1 ++ ServerSocket.issued o2 = []
  /\ List.length (ServerSocket.issued o1 ++ ServerSocket.issued o2) <> 1%nat.
Proof.
  cbv zeta. split; [reflexivity|discriminate].
Qed.

(** C3 (amended). For every flag combination and previous command, a tick
    followed by a second tick on the same flags makes at most one actuator
    call: the second tick never calls, so the two ticks make exactly one call
    when the first tick matches a row of the table and none when it does
    not. *)
Theorem second_tick_is_silent :
  forall (fl : Spec.DirectionFlags) (prev : Spec.MotionCommand),
    let o1 := ServerSocket.tick (ServerSocket.holding fl prev) in
    let o2 := ServerSocket.tick (ServerSocket.after o1) in
    ServerSocket.flags_of (ServerSocket.after o1)
    = ServerSocket.flags_of (ServerSocket.holding fl prev)
    /\ ServerSocket.issued o2 = []
    /\ ServerSocket.after o2 = ServerSocket.after o1
    /\ List.length (ServerSocket.issued o1 ++ ServerSocket.issued o2)
       = match Spec.first_match fl prev with Some _ => 1%nat | None => 0%nat end
    /\ (List.length (ServerSocket.issued o1 ++ ServerSocket.issued o2) <= 1)%nat.
Proof.
  intros [[] [] [] []] []; cbv zeta; repeat split; apply Nat.le_refl || apply Nat.le_0_1.
Qed.

(** * Further properties of the code *)

(** ** The motor pins *)

(** The pin functions are the listed writes, applied in order. *)
Lemma drive_is_its_writes (c : ServerSocket.call) (p : ServerSocket.pins) :
  ServerSocket.drive c p = ServerSocket.apply_writes (ServerSocket.writes c) p.
Proof. destruct c; reflexivity. Qed.

(** X1. During any motion primitive, after each single [gpio.output] it
    makes, neither side of the drive has both of its pins HIGH, provided that
    was so before the call; and the pins it leaves do not depend on the pins
    it found. *)
Theorem pins_safe_at_every_write :
  forall (c : ServerSocket.call) (p : ServerSocket.pins) (n : nat),
    ServerSocket.safe p = true ->
    ServerSocket.safe
      (ServerSocket.apply_writes (firstn n (ServerSocket.writes c)) p) = true
    /\ ServerSocket.drive c p = ServerSocket.pattern c.
Proof.
  intros c [[] [] [] []] n Hs; try discriminate Hs; clear Hs;
    (split; [|destruct c; reflexivity]);
    destruct c; do 9 (destruct n as [|n]; [reflexivity|]); reflexivity.
Qed.

Lemma pins_safe_at_every_write_witness :
  ServerSocket.safe
    (ServerSocket.apply_writes
       (firstn 5 (ServerSocket.writes ServerSocket.call_backward))
       (ServerSocket.pattern ServerSocket.call_forward)) = true
  /\ ServerSocket.drive ServerSocket.call_backward
       (ServerSocket.pattern ServerSocket.call_forward)
     = ServerSocket.pattern ServerSocket.call_backward.
Proof.
  apply (pins_safe_at_every_write ServerSocket.call_backward
           (ServerSocket.pattern ServerSocket.call_forward) 5).
  reflexivity.
Defined.

(** ** The engine over many passes *)

(** A pass either does nothing at all, or makes one call and records its
    code; outside the shutdown pass the call differs from the one recorded. *)
Lemma tick_shape (g : ServerSocket.globals) :
  ServerSocket.tick g = ServerSocket.Outcome g [] true
  \/ exists c : ServerSocket.call,
       ServerSocket.tick g
       = ServerSocket.Outcome
           (ServerSocket.set_previousstate (ServerSocket.code_of_call c) g) [c]
           (negb (ServerSocket.exit_program g =? 1))
       /\ (ServerSocket.exit_program g <> 1 ->
           ServerSocket.code_of_call c <> ServerSocket.previousstate g).
Proof.
  unfold ServerSocket.tick. cbv zeta.
  destruct (ServerSocket.exit_program g =? 1) eqn:Hx.
  - right. exists ServerSocket.call_clear. split; [reflexivity|].
    apply Z.eqb_eq in Hx. intros H. contradiction.
  - repeat (match goal with |- context [if ?b then _ else _] => destruct b eqn:? end;
            cbv iota);
      try (left; reflexivity);
      right; read_prev_test;
      [ exists ServerSocket.call_clear | exists ServerSocket.call_clear
      | exists ServerSocket.call_clear | exists ServerSocket.call_clear
      | exists ServerSocket.call_forward | exists ServerSocket.call_forward
      | exists ServerSocket.call_forward | exists ServerSocket.call_forward
      | exists ServerSocket.call_backward | exists ServerSocket.call_backward
      | exists ServerSocket.call_backward | exists ServerSocket.call_backward
      | exists ServerSocket.call_left | exists ServerSocket.call_left
      | exists ServerSocket.call_right | exists ServerSocket.call_right ];
      (split; [reflexivity|intros _; cbn [ServerSocket.code_of_call]; congruence]).
Qed.

(** Turns the test of a taken branch into equations on the globals. *)
Ltac read_flags_test :=
  repeat match goal with
    | H : (_ && _)%bool = true |- _ => apply andb_prop in H; destruct H
    | H : (_ =? _) = true |- _ => apply Z.eqb_eq in H
    end.

(** A pass repeated on the globals it left does nothing, whatever integers
    the globals hold. *)
Lemma tick_twice (g : ServerSocket.globals) :
  ServerSocket.exit_program g <> 1 ->
  ServerSocket.tick (ServerSocket.after (ServerSocket.tick g))
  = ServerSocket.Outcome (ServerSocket.after (ServerSocket.tick g)) [] true.
Proof.
  intros Hx. apply Z.eqb_neq in Hx.
  assert (H : forall o, ServerSocket.tick g = o ->
                        ServerSocket.tick (ServerSocket.after o)
                        = ServerSocket.Outcome (ServerSocket.after o) [] true).
  { intros o Ho. unfold ServerSocket.tick in Ho. rewrite Hx in Ho. cbv zeta in Ho.
    repeat (match type of Ho with context [if ?b then _ else _] =>
              destruct b eqn:? end; cbv iota in Ho);
      subst o; cbn [ServerSocket.after];
      try (unfold ServerSocket.flags_are, ServerSocket.neq in *;
           read_flags_test;
           destruct g as [pv fv bv lv rv ex];
           cbn [ServerSocket.previousstate ServerSocket.forwardvar
                ServerSocket.backwardvar ServerSocket.leftvar ServerSocket.rightvar
                ServerSocket.exit_program ServerSocket.set_previousstate] in *;
           subst; unfold ServerSocket.tick, ServerSocket.flags_are, ServerSocket.neq,
             ServerSocket.set_previousstate;
           cbn [ServerSocket.previousstate ServerSocket.forwardvar
                ServerSocket.backwardvar ServerSocket.leftvar ServerSocket.rightvar
                ServerSocket.exit_program];
           rewrite Hx; reflexivity).
    unfold ServerSocket.tick. rewrite Hx. cbv zeta.
    repeat match goal with H : ?c = false |- context [?c] => rewrite H end.
    reflexivity. }
  apply H. reflexivity.
Qed.

Lemma no_repeat_snoc (l : list ServerSocket.call) (c : ServerSocket.call) :
  ServerSocket.no_repeat l ->
  (l = [] \/ last l ServerSocket.call_clear <> c) ->
  ServerSocket.no_repeat (l ++ [c]).
Proof.
  induction l as [|a [|b l] IH]; intros Hn Hl.
  - exact I.
  - cbn. split; [|exact I]. destruct Hl as [Hl|Hl]; [discriminate|exact Hl].
  - destruct Hn as [Hab Hn]. change ((a :: b :: l) ++ [c]) with (a :: (b :: l) ++ [c]).
    cbn [ServerSocket.no_repeat app]. split; [exact Hab|].
    apply IH; [exact Hn|]. right. destruct Hl as [Hl|Hl]; [discriminate|exact Hl].
Qed.

(** A message writes 0 or 1 to a flag, 1 to [exit_program], and nothing
    else. *)
Lemma receive_bits (d : string) (g : ServerSocket.globals) :
  let g' := fst (ServerSocket.receive d g) in
  (ServerSocket.bit (ServerSocket.forwardvar g) ->
   ServerSocket.bit (ServerSocket.forwardvar g'))
  /\ (ServerSocket.bit (ServerSocket.backwardvar g) ->
      ServerSocket.bit (ServerSocket.backwardvar g'))
  /\ (ServerSocket.bit (ServerSocket.leftvar g) ->
      ServerSocket.bit (ServerSocket.leftvar g'))
  /\ (ServerSocket.bit (ServerSocket.rightvar g) ->
      ServerSocket.bit (ServerSocket.rightvar g'))
  /\ (ServerSocket.bit (ServerSocket.exit_program g) ->
      ServerSocket.bit (ServerSocket.exit_program g')).
Proof.
  cbv zeta. unfold ServerSocket.receive, ServerSocket.bit.
  repeat (destruct (String.eqb d _); [cbn; repeat split; auto|]).
  cbn. repeat split; auto.
Qed.

Lemma step_consistent (p : ServerSocket.pins) (s : ServerSocket.system)
      (e : ServerSocket.event) :
  ServerSocket.consistent p s -> ServerSocket.consistent p (ServerSocket.step s e).
Proof.
  intros (Hb & Hp & Hg & Hn).
  destruct e as [| |d|].
  - (* a pass of the robot thread *)
    cbn [ServerSocket.step]. destruct (ServerSocket.robot_running s) eqn:Hr;
      [|unfold ServerSocket.consistent; rewrite Hr; auto].
    destruct (tick_frame (ServerSocket.vars s)) as [Hf Hx].
    assert (Hb' : ServerSocket.bit (ServerSocket.forwardvar
                     (ServerSocket.after (ServerSocket.tick (ServerSocket.vars s))))
                  /\ ServerSocket.bit (ServerSocket.backwardvar
                     (ServerSocket.after (ServerSocket.tick (ServerSocket.vars s))))
                  /\ ServerSocket.bit (ServerSocket.leftvar
                     (ServerSocket.after (ServerSocket.tick (ServerSocket.vars s))))
                  /\ ServerSocket.bit (ServerSocket.rightvar
                     (ServerSocket.after (ServerSocket.tick (ServerSocket.vars s))))
                  /\ ServerSocket.bit (ServerSocket.exit_program
                     (ServerSocket.after (ServerSocket.tick (ServerSocket.vars s))))).
    { unfold ServerSocket.flags_of in Hf. injection Hf as -> -> -> ->. rewrite Hx.
      exact Hb. }
    destruct (tick_shape (ServerSocket.vars s)) as [Ht|(c & Ht & Hc)].
    + rewrite Ht in *. cbn [ServerSocket.after ServerSocket.issued ServerSocket.goes_on
                            fold_left] in *.
      unfold ServerSocket.consistent.
      cbn [ServerSocket.vars ServerSocket.gpio ServerSocket.calls
           ServerSocket.robot_running].
      rewrite app_nil_r. auto.
    + rewrite Ht in *. cbn [ServerSocket.after ServerSocket.issued ServerSocket.goes_on
                            fold_left] in *.
      unfold ServerSocket.consistent.
      cbn [ServerSocket.vars ServerSocket.gpio ServerSocket.calls
           ServerSocket.robot_running].
      split; [exact Hb'|]. split; [|split].
      * unfold ServerSocket.last_code. rewrite last_last. reflexivity.
      * rewrite last_last.
        destruct (ServerSocket.calls s ++ [c]) eqn:Hl;
          [destruct (ServerSocket.calls s); discriminate Hl|].
        destruct c, (ServerSocket.gpio s) as [[] [] [] []]; reflexivity.
      * destruct (ServerSocket.exit_program (ServerSocket.vars s) =? 1) eqn:Hx1;
          cbn [negb].
        -- rewrite removelast_last. exact Hn.
        -- apply no_repeat_snoc; [exact Hn|].
           destruct (ServerSocket.calls s) as [|a l] eqn:Hl; [left; reflexivity|].
           right. intros Heq. apply Z.eqb_neq in Hx1. apply (Hc Hx1).
           rewrite Hp. unfold ServerSocket.last_code. rewrite Heq. reflexivity.
  - cbn [ServerSocket.step]. destruct (ServerSocket.socket s);
      unfold ServerSocket.consistent; auto.
  - cbn [ServerSocket.step]. destruct (ServerSocket.socket s);
      try (unfold ServerSocket.consistent; auto; fail).
    pose proof (receive_bits d (ServerSocket.vars s)) as Hrb.
    pose proof (receive_keeps_previousstate d (ServerSocket.vars s)) as Hrp.
    destruct (ServerSocket.receive d (ServerSocket.vars s)) as [g closed].
    cbv zeta in Hrb. cbn [fst] in Hrb, Hrp.
    unfold ServerSocket.consistent.
    cbn [ServerSocket.vars ServerSocket.gpio ServerSocket.calls
         ServerSocket.robot_running].
    destruct Hb as (B1 & B2 & B3 & B4 & B5).
    destruct Hrb as (R1 & R2 & R3 & R4 & R5).
    rewrite Hrp. auto 10.
  - cbn [ServerSocket.step]. destruct (ServerSocket.socket s);
      unfold ServerSocket.consistent; auto.
Qed.

Lemma run_consistent (p : ServerSocket.pins) (es : list ServerSocket.event) :
  forall s : ServerSocket.system,
    ServerSocket.consistent p s -> ServerSocket.consistent p (ServerSocket.run es s).
Proof.
  induction es as [|e es IH]; intros s Hs; [exact Hs|].
  change (ServerSocket.run (e :: es) s) with (ServerSocket.run es (ServerSocket.step s e)).
  apply IH, step_consistent, Hs.
Qed.

Lemma boot_consistent (p : ServerSocket.pins) :
  ServerSocket.consistent p (ServerSocket.boot p).
Proof.
  unfold ServerSocket.consistent, ServerSocket.bit. cbn. auto 10.
Qed.

(** X2. Whatever the two threads have done since the program started: each
    of the four flags and [exit_program] is 0 or 1, [previousstate] is the
    code of the last actuator call made (0 before the first), and the pins
    carry exactly the pattern of that call (the pins of the start before the
    first call). *)
Theorem record_agrees_with_pins :
  forall (p : ServerSocket.pins) (es : list ServerSocket.event),
    let s := ServerSocket.run es (ServerSocket.boot p) in
    (ServerSocket.bit (ServerSocket.forwardvar (ServerSocket.vars s))
     /\ ServerSocket.bit (ServerSocket.backwardvar (ServerSocket.vars s))
     /\ ServerSocket.bit (ServerSocket.leftvar (ServerSocket.vars s))
     /\ ServerSocket.bit (ServerSocket.rightvar (ServerSocket.vars s))
     /\ ServerSocket.bit (ServerSocket.exit_program (ServerSocket.vars s)))
    /\ ServerSocket.previousstate (ServerSocket.vars s)
       = ServerSocket.last_code (ServerSocket.calls s)
    /\ ServerSocket.gpio s
       = match ServerSocket.calls s with
         | [] => p
         | _ => ServerSocket.pattern (last (ServerSocket.calls s) ServerSocket.call_clear)
         end.
Proof.
  intros p es s.
  destruct (run_consistent p es _ (boot_consistent p)) as (H1 & H2 & H3 & _).
  auto.
Qed.

(** X3. While the robot thread is in its loop, no actuator function has been
    called twice in a row; the one call that may repeat its predecessor is the
    [clear()] of the shutdown pass, which is the last call of all. *)
Theorem calls_never_repeat :
  forall (p : ServerSocket.pins) (es : list ServerSocket.event),
    let s := ServerSocket.run es (ServerSocket.boot p) in
    if ServerSocket.robot_running s
    then ServerSocket.no_repeat (ServerSocket.calls s)
    else ServerSocket.no_repeat (removelast (ServerSocket.calls s)).
Proof.
  intros p es s.
  destruct (run_consistent p es _ (boot_consistent p)) as (_ & _ & _ & H4).
  exact H4.
Qed.

Lemma step_tick_twice (s : ServerSocket.system) :
  ServerSocket.step (ServerSocket.step s ServerSocket.RobotTick) ServerSocket.RobotTick
  = ServerSocket.step s ServerSocket.RobotTick.
Proof.
  cbn [ServerSocket.step]. cbv zeta.
  destruct (ServerSocket.robot_running s) eqn:Hr; [|rewrite Hr; reflexivity].
  cbn [ServerSocket.robot_running ServerSocket.vars ServerSocket.gpio
       ServerSocket.socket ServerSocket.calls].
  destruct (ServerSocket.exit_program (ServerSocket.vars s) =? 1) eqn:Hx.
  - assert (Ht : ServerSocket.tick (ServerSocket.vars s)
                 = ServerSocket.Outcome
                     (ServerSocket.set_previousstate 0 (ServerSocket.vars s))
                     [ServerSocket.call_clear] false).
    { unfold ServerSocket.tick. rewrite Hx. reflexivity. }
    rewrite Ht. reflexivity.
  - apply Z.eqb_neq in Hx.
    assert (Hg : ServerSocket.goes_on (ServerSocket.tick (ServerSocket.vars s)) = true).
    { destruct (tick_shape (ServerSocket.vars s)) as [Ht|(c & Ht & _)]; rewrite Ht;
        [reflexivity|]. cbn [ServerSocket.goes_on].
      apply Z.eqb_neq in Hx. rewrite Hx. reflexivity. }
    rewrite Hg, (tick_twice _ Hx).
    cbn [ServerSocket.after ServerSocket.issued ServerSocket.goes_on fold_left].
    rewrite app_nil_r. reflexivity.
Qed.

(** X4. Between two messages the engine settles in one pass: any number of
    further passes of the robot thread leave the globals, the pins and the
    record of calls exactly as the first pass left them, whatever integers the
    globals hold. *)
Theorem passes_settle_after_one :
  forall (s : ServerSocket.system) (n : nat),
    ServerSocket.run (repeat ServerSocket.RobotTick (S n)) s
    = ServerSocket.step s ServerSocket.RobotTick.
Proof.
  intros s n. revert s. induction n as [|n IH]; intros s; [reflexivity|].
  change (ServerSocket.run (repeat ServerSocket.RobotTick (S (S n))) s)
    with (ServerSocket.run (repeat ServerSocket.RobotTick (S n))
            (ServerSocket.step s ServerSocket.RobotTick)).
  rewrite IH. apply step_tick_twice.
Qed.

(** X5. With the key of one motion held alone, or no key held, one pass
    brings the recorded command to that motion (to none) from any recorded
    value: it calls the motion's function unless the record already says so.
    In particular releasing every key always calls [clear()] at the next pass
    of a moving robot. *)
Theorem single_key_always_wins :
  forall (g : ServerSocket.globals) (c : ServerSocket.call),
    ServerSocket.exit_program g <> 1 ->
    ServerSocket.flags_of g = ServerSocket.solo c ->
    ServerSocket.tick g
    = if ServerSocket.previousstate g =? ServerSocket.code_of_call c
      then ServerSocket.Outcome g [] true
      else ServerSocket.Outcome
             (ServerSocket.set_previousstate (ServerSocket.code_of_call c) g) [c] true.
Proof.
  intros [pv fv bv lv rv ex] c Hx Hf. apply Z.eqb_neq in Hx.
  cbn [ServerSocket.exit_program] in Hx.
  unfold ServerSocket.flags_of in Hf.
  cbn [ServerSocket.forwardvar ServerSocket.backwardvar ServerSocket.leftvar
       ServerSocket.rightvar] in Hf.
  destruct c; cbn [ServerSocket.solo] in Hf; injection Hf as -> -> -> ->;
    unfold ServerSocket.tick, ServerSocket.flags_are, ServerSocket.neq,
      ServerSocket.set_previousstate;
    cbn [ServerSocket.previousstate ServerSocket.forwardvar ServerSocket.backwardvar
         ServerSocket.leftvar ServerSocket.rightvar ServerSocket.exit_program
         ServerSocket.code_of_call];
    rewrite Hx; cbn;
    match goal with |- context [pv =? ?k] => destruct (pv =? k) end; reflexivity.
Qed.

Lemma single_key_always_wins_witness :
  ServerSocket.tick (ServerSocket.Globals 2 0 0 0 0 0)
  = ServerSocket.Outcome (ServerSocket.Globals 0 0 0 0 0 0) [ServerSocket.call_clear] true.
Proof.
  apply (single_key_always_wins (ServerSocket.Globals 2 0 0 0 0 0) ServerSocket.call_clear).
  - vm_compute; discriminate.
  - reflexivity.
Defined.

(** X6. With one straight key and one turn key held, a pass acts only when
    the record is that very turn: it then calls the straight motion.  From
    every other recorded value, rest included, it calls nothing and leaves the
    record as it is. *)
Theorem diagonal_needs_the_turn_first :
  forall (g : ServerSocket.globals) (fl : Z * Z * Z * Z) (k : Z) (c : ServerSocket.call),
    ServerSocket.exit_program g <> 1 ->
    In (fl, k, c) ServerSocket.diagonals ->
    ServerSocket.flags_of g = fl ->
    ServerSocket.tick g
    = if ServerSocket.previousstate g =? k
      then ServerSocket.Outcome
             (ServerSocket.set_previousstate (ServerSocket.code_of_call c) g) [c] true
      else ServerSocket.Outcome g [] true.
Proof.
  intros [pv fv bv lv rv ex] fl k c Hx Hin Hf. apply Z.eqb_neq in Hx.
  cbn [ServerSocket.exit_program] in Hx.
  unfold ServerSocket.flags_of in Hf.
  cbn [ServerSocket.forwardvar ServerSocket.backwardvar ServerSocket.leftvar
       ServerSocket.rightvar] in Hf.
  cbn [In ServerSocket.diagonals] in Hin.
  destruct Hin as [H|[H|[H|[H|[]]]]]; injection H as <- <- <-;
    injection Hf as -> -> -> ->;
    unfold ServerSocket.tick, ServerSocket.flags_are, ServerSocket.neq,
      ServerSocket.set_previousstate;
    cbn [ServerSocket.previousstate ServerSocket.forwardvar ServerSocket.backwardvar
         ServerSocket.leftvar ServerSocket.rightvar ServerSocket.exit_program
         ServerSocket.code_of_call];
    rewrite Hx; cbn;
    match goal with |- context [pv =? ?k] => destruct (pv =? k) end; reflexivity.
Qed.

(** [w] and [a] held from rest: nothing is called. *)
Lemma diagonal_needs_the_turn_first_witness :
  ServerSocket.tick (ServerSocket.Globals 0 1 0 1 0 0)
  = ServerSocket.Outcome (ServerSocket.Globals 0 1 0 1 0 0) [] true.
Proof.
  apply (diagonal_needs_the_turn_first (ServerSocket.Globals 0 1 0 1 0 0)
           (1, 0, 1, 0) 3 ServerSocket.call_forward).
  - vm_compute; discriminate.
  - left; reflexivity.
  - reflexivity.
Defined.

(** ** The text protocol *)

(** What one message does to each global, read off the chain of
    [socketThread.run]. *)
Lemma receive_writes (d : string) (g : ServerSocket.globals) :
  let g' := fst (ServerSocket.receive d g) in
  ServerSocket.forwardvar g'
  = (if String.eqb d "'w' press" then 1
     else if String.eqb d "'w' release" then 0 else ServerSocket.forwardvar g)
  /\ ServerSocket.leftvar g'
     = (if String.eqb d "'a' press" then 1
        else if String.eqb d "'a' release" then 0 else ServerSocket.leftvar g)
  /\ ServerSocket.backwardvar g'
     = (if String.eqb d "'s' press" then 1
        else if String.eqb d "'s' release" then 0 else ServerSocket.backwardvar g)
  /\ ServerSocket.rightvar g'
     = (if String.eqb d "'d' press" then 1
        else if String.eqb d "'d' release" then 0 else ServerSocket.rightvar g)
  /\ ServerSocket.exit_program g'
     = (if String.eqb d "exit" then 1 else ServerSocket.exit_program g).
Proof.
  cbv zeta. unfold ServerSocket.receive.
  repeat match goal with
    | |- context [String.eqb d ?l] =>
        destruct (String.eqb_spec d l) as [->|?]; [repeat split; reflexivity|]
    end.
  repeat split; reflexivity.
Qed.

(** X7. After any sequence of messages each flag holds what the last message
    of its own key wrote (1 for a press, 0 for a release), or its old value
    when no message of that key came; messages of other keys, unknown data and
    [exit] do not touch it.  [exit_program] is 1 once [exit] was among them,
    and [previousstate] is never written. *)
Theorem last_message_of_a_key_decides :
  forall (msgs : list string) (g : ServerSocket.globals),
    let g' := ServerSocket.feed msgs g in
    let held press release old :=
      match ServerSocket.last_write press release msgs with
      | Some v => v
      | None => old
      end in
    ServerSocket.forwardvar g' = held "'w' press" "'w' release" (ServerSocket.forwardvar g)
    /\ ServerSocket.leftvar g' = held "'a' press" "'a' release" (ServerSocket.leftvar g)
    /\ ServerSocket.backwardvar g'
       = held "'s' press" "'s' release" (ServerSocket.backwardvar g)
    /\ ServerSocket.rightvar g' = held "'d' press" "'d' release" (ServerSocket.rightvar g)
    /\ ServerSocket.exit_program g'
       = (if existsb (String.eqb "exit") msgs then 1 else ServerSocket.exit_program g)
    /\ ServerSocket.previousstate g' = ServerSocket.previousstate g.
Proof.
  induction msgs as [|d msgs IH]; intros g; cbv zeta; [repeat split|].
  change (ServerSocket.feed (d :: msgs) g)
    with (ServerSocket.feed msgs (fst (ServerSocket.receive d g))).
  destruct (IH (fst (ServerSocket.receive d g))) as (Hf & Hl & Hb & Hr & Hx & Hp).
  destruct (receive_writes d g) as (Wf & Wl & Wb & Wr & Wx).
  rewrite Hf, Hl, Hb, Hr, Hx, Hp, Wf, Wl, Wb, Wr, Wx, receive_keeps_previousstate.
  cbn [ServerSocket.last_write existsb]. rewrite (String.eqb_sym "exit" d).
  repeat split;
    repeat match goal with
      | |- context [ServerSocket.last_write ?p ?r msgs] =>
          destruct (ServerSocket.last_write p r msgs)
      | |- context [String.eqb d ?l] => destruct (String.eqb d l)
      | |- context [existsb ?f msgs] => destruct (existsb f msgs)
      end; reflexivity.
Qed.

(** Data that is none of the nine messages changes nothing and keeps the
    connection. *)
Lemma receive_unknown (d : string) (g : ServerSocket.globals) :
  ~ In d ServerSocket.known_messages -> ServerSocket.receive d g = (g, false).
Proof.
  intros Hn. unfold ServerSocket.receive.
  repeat match goal with
    | |- context [String.eqb d ?l] =>
        destruct (String.eqb_spec d l) as [->|?];
        [exfalso; apply Hn; cbn; auto 12|]
    end.
  reflexivity.
Qed.

(** X8. Two messages that arrive in one [recv] are both lost: the
    concatenation of any two of the nine messages is none of them, so it
    writes no global and does not close the connection. *)
Theorem coalesced_messages_are_dropped :
  forall (d1 d2 : string) (g : ServerSocket.globals),
    In d1 ServerSocket.known_messages ->
    In d2 ServerSocket.known_messages ->
    ServerSocket.receive (String.append d1 d2) g = (g, false).
Proof.
  intros d1 d2 g H1 H2. apply receive_unknown.
  cbn [In ServerSocket.known_messages] in H1, H2.
  repeat (destruct H1 as [<-|H1]; [|]); try contradiction;
    repeat (destruct H2 as [<-|H2]; [|]); try contradiction;
    cbn; intuition discriminate.
Qed.

Lemma coalesced_messages_are_dropped_witness :
  ServerSocket.receive "'w' press'a' press" ServerSocket.initial
  = (ServerSocket.initial, false).
Proof.
  apply (coalesced_messages_are_dropped "'w' press" "'a' press" ServerSocket.initial);
    cbn; auto 12.
Defined.

(** X9. Data that is none of the nine messages leaves the whole program as it
    is and the socket thread inside its receive loop.  That includes the
    empty data [recv] returns once the peer has closed the connection: the
    thread then stays on the dead connection and does not go back to
    [accept]. *)
Theorem unknown_data_changes_nothing :
  forall (s : ServerSocket.system) (ds : list string),
    ServerSocket.socket s = ServerSocket.Serving ->
    Forall (fun d => ~ In d ServerSocket.known_messages) ds ->
    ServerSocket.run (map ServerSocket.Recv ds) s = s.
Proof.
  intros s ds Hs Hall. induction Hall as [|d ds Hd _ IH]; [reflexivity|].
  change (ServerSocket.run (map ServerSocket.Recv (d :: ds)) s)
    with (ServerSocket.run (map ServerSocket.Recv ds)
            (ServerSocket.step s (ServerSocket.Recv d))).
  assert (Hstep : ServerSocket.step s (ServerSocket.Recv d) = s).
  { cbn [ServerSocket.step]. rewrite Hs, (receive_unknown d _ Hd).
    destruct s; cbn in *; subst; reflexivity. }
  rewrite Hstep. exact IH.
Qed.

(** The peer closes after [w] was pressed: the flag stays raised, the thread
    stays in the receive loop. *)
Lemma unknown_data_changes_nothing_witness :
  let s := ServerSocket.run [ServerSocket.Accept; ServerSocket.Recv "'w' press"]
             (ServerSocket.boot (ServerSocket.Pins ServerSocket.LOW ServerSocket.LOW
                                                   ServerSocket.LOW ServerSocket.LOW)) in
  ServerSocket.run (map ServerSocket.Recv [""; ""; "EXIT"; "'w' release "]) s = s
  /\ ServerSocket.socket s = ServerSocket.Serving
  /\ ServerSocket.flags_of (ServerSocket.vars s) = (1, 0, 0, 0).
Proof.
  intros s. split; [|split; reflexivity].
  apply (unknown_data_changes_nothing s [""; ""; "EXIT"; "'w' release "]).
  - reflexivity.
  - repeat (apply Forall_cons || apply Forall_nil); cbn; intuition discriminate.
Defined.

(** ** Client and server *)

Lemma length_append (a s : string) :
  String.length (String.append a s) = (String.length a + String.length s)%nat.
Proof. induction a as [|c a IH]; cbn; [reflexivity|rewrite IH; reflexivity]. Qed.

(** Two texts that end in suffixes of one length are equal only part by
    part. *)
Lemma append_split (a b s t : string) :
  String.length s = String.length t ->
  String.append a s = String.append b t -> a = b /\ s = t.
Proof.
  revert b. induction a as [|c a IH]; intros [|c' b] Hl He; cbn in He.
  - auto.
  - apply (f_equal String.length) in He. cbn in He. rewrite length_append in He. lia.
  - apply (f_equal String.length) in He. cbn in He. rewrite length_append in He. lia.
  - injection He as -> He. destruct (IH b Hl He) as [-> ->]. auto.
Qed.

Lemma eqb_same_suffix (k pre suf lit : string) :
  lit = String.append pre suf ->
  String.eqb (String.append k suf) lit = String.eqb k pre.
Proof.
  intros ->.
  destruct (String.eqb_spec k pre) as [->|Hn]; [apply String.eqb_refl|].
  apply String.eqb_neq. intros He. apply Hn.
  exact (proj1 (append_split k pre suf suf eq_refl He)).
Qed.

Lemma eqb_other_suffix (k pre suf suf' lit : string) :
  lit = String.append pre suf' ->
  String.length suf = String.length suf' ->
  String.eqb suf suf' = false ->
  String.eqb (String.append k suf) lit = false.
Proof.
  intros -> Hl Hn. apply String.eqb_neq. intros He.
  apply String.eqb_neq in Hn. apply Hn.
  exact (proj2 (append_split k pre suf suf' Hl He)).
Qed.

Lemma eqb_too_short (k suf lit : string) :
  (String.length lit < String.length suf)%nat ->
  String.eqb (String.append k suf) lit = false.
Proof.
  intros Hl. apply String.eqb_neq. intros He.
  apply (f_equal String.length) in He. rewrite length_append in He. lia.
Qed.

(** The server's tests on a press message are tests on the key. *)
Lemma receive_press (key : string) (g : ServerSocket.globals) :
  ServerSocket.receive (Client.on_key_press key) g = (Client.write_flag key 1 g, false).
Proof.
  unfold ServerSocket.receive, Client.on_key_press, Client.write_flag, Client.flag_setter.
  rewrite (eqb_too_short key " press" "exit") by (cbn; lia).
  rewrite (eqb_same_suffix key "'w'" " press" "'w' press" eq_refl).
  rewrite (eqb_other_suffix key "'w' r" " press" "elease" "'w' release" eq_refl eq_refl eq_refl).
  rewrite (eqb_same_suffix key "'a'" " press" "'a' press" eq_refl).
  rewrite (eqb_other_suffix key "'a' r" " press" "elease" "'a' release" eq_refl eq_refl eq_refl).
  rewrite (eqb_same_suffix key "'s'" " press" "'s' press" eq_refl).
  rewrite (eqb_other_suffix key "'s' r" " press" "elease" "'s' release" eq_refl eq_refl eq_refl).
  rewrite (eqb_same_suffix key "'d'" " press" "'d' press" eq_refl).
  repeat match goal with |- context [String.eqb key ?l] =>
    destruct (String.eqb_spec key l) as [->|?]; [reflexivity|] end.
  rewrite (eqb_other_suffix key "'d' r" " press" "elease" "'d' release" eq_refl eq_refl eq_refl).
  reflexivity.
Qed.

Lemma receive_release (key : string) (g : ServerSocket.globals) :
  ServerSocket.receive (String.append key " release") g
  = (Client.write_flag key 0 g, false).
Proof.
  unfold ServerSocket.receive, Client.write_flag, Client.flag_setter.
  rewrite (eqb_too_short key " release" "exit") by (cbn; lia).
  rewrite (eqb_other_suffix key "'" " release" "w' press" "'w' press" eq_refl eq_refl eq_refl).
  rewrite (eqb_same_suffix key "'w'" " release" "'w' release" eq_refl).
  rewrite (eqb_other_suffix key "'" " release" "a' press" "'a' press" eq_refl eq_refl eq_refl).
  rewrite (eqb_same_suffix key "'a'" " release" "'a' release" eq_refl).
  rewrite (eqb_other_suffix key "'" " release" "s' press" "'s' press" eq_refl eq_refl eq_refl).
  rewrite (eqb_same_suffix key "'s'" " release" "'s' release" eq_refl).
  rewrite (eqb_other_suffix key "'" " release" "d' press" "'d' press" eq_refl eq_refl eq_refl).
  rewrite (eqb_same_suffix key "'d'" " release" "'d' release" eq_refl).
  repeat match goal with |- context [String.eqb key ?l] =>
    destruct (String.eqb_spec key l) as [->|?]; [reflexivity|] end.
  reflexivity.
Qed.

(** X10. What the client sends for a key, the server decodes to that key:
    for every key (by its rendering) the press message writes 1 and the
    release message 0 to the flag of ['w'], ['a'], ['s'] or ['d'], and for
    every other key neither message writes anything; neither closes the
    connection.  The one exception is the release of ['+'], which is sent as
    [exit]; its press is ignored like any other key's. *)
Theorem client_messages_decode_to_their_key :
  forall (key : string) (g : ServerSocket.globals),
    ServerSocket.receive (Client.on_key_press key) g
    = (Client.write_flag key 1 g, false)
    /\ ServerSocket.receive (Client.on_key_release key) g
       = (if String.eqb key "'+'"
          then (ServerSocket.set_exit_program 1 g, true)
          else (Client.write_flag key 0 g, false)).
Proof.
  intros key g. split; [apply receive_press|].
  unfold Client.on_key_release. cbv zeta.
  destruct (String.eqb key "'+'"); [reflexivity|apply receive_release].
Qed.

(** ** [server.py]: the unbound names *)

(** X11. In [server.py] the name [exit_program] is unbound until an [exit]
    message binds it.  Until then, whatever key messages have been received,
    a pass of the robot thread stops with [NameError] before it examines any
    rule, and so does the handler of a dropped connection; once [exit] has
    been received the pass is the shutdown pass and the handler leaves the
    loop. *)
Theorem server_py_needs_exit_to_bind :
  forall msgs : list string,
    let ns := ServerPy.feed msgs ServerPy.at_start in
    ServerPy.tick ns
    = (if existsb (String.eqb "exit") msgs
       then ServerPy.Ok (ServerPy.Outcome (ServerPy.set_previousstate 0 ns)
                                          [ServerSocket.call_clear] false)
       else ServerPy.NameError "exit_program")
    /\ ServerPy.except_handler ns
       = (if existsb (String.eqb "exit") msgs
          then ServerPy.Ok true else ServerPy.NameError "exit_program").
Proof.
  intros msgs ns.
  pose proof (server_py_feed_exit msgs ServerPy.at_start) as Hx. fold ns in Hx.
  unfold ServerPy.tick, ServerPy.except_handler. rewrite Hx.
  destruct (existsb (String.eqb "exit") msgs); split; reflexivity.
Qed.

(** ** The webapp over a session *)

Lemma apply_state_is_chosen (w : Webapp.world) :
  Webapp.apply_state w = Webapp.invoke (Webapp.chosen (Webapp.state w)) w.
Proof.
  unfold Webapp.apply_state, Webapp.chosen. cbv zeta.
  repeat match goal with |- context [if ?b then _ else _] => destruct b end;
    reflexivity.
Qed.

Lemma log_last_cmd (cmd : string) (c : Webapp.MockRobotController) :
  Webapp.last_cmd (Webapp.log cmd c) = cmd.
Proof.
  unfold Webapp.log. destruct (String.eqb_spec cmd (Webapp.last_cmd c)) as [->|_];
    reflexivity.
Qed.

Lemma no_repeat_lines_snoc (l : list string) (x : string) :
  Webapp.no_repeat_lines l ->
  (l = [] \/ last l "" <> x) ->
  Webapp.no_repeat_lines (l ++ [x]).
Proof.
  induction l as [|a [|b l] IH]; intros Hn Hl.
  - exact I.
  - cbn. split; [|exact I]. destruct Hl as [Hl|Hl]; [discriminate|exact Hl].
  - destruct Hn as [Hab Hn]. change ((a :: b :: l) ++ [x]) with (a :: (b :: l) ++ [x]).
    cbn [Webapp.no_repeat_lines app]. split; [exact Hab|].
    apply IH; [exact Hn|]. right. destruct Hl as [Hl|Hl]; [discriminate|exact Hl].
Qed.

Lemma apply_state_in_step (st : Webapp.ControlState) (w : Webapp.world) :
  Webapp.in_step w -> Webapp.in_step (Webapp.apply_state (Webapp.set_state st w)).
Proof.
  intros (_ & Hl & Hn & Hp). rewrite apply_state_is_chosen.
  unfold Webapp.in_step, Webapp.invoke, Webapp.set_state.
  cbn [Webapp.state Webapp.controller Webapp.invoked].
  rewrite last_last, log_last_cmd. split; [reflexivity|]. split; [reflexivity|].
  unfold Webapp.log.
  destruct (String.eqb_spec (Webapp.name (Webapp.chosen st))
                            (Webapp.last_cmd (Webapp.controller w))) as [He|Hne];
    cbn [negb Webapp.printed Webapp.last_cmd].
  - rewrite He. auto.
  - rewrite last_last. split; [|right; reflexivity].
    apply no_repeat_lines_snoc; [exact Hn|].
    destruct Hp as [Hp|Hp]; [left; exact Hp|right].
    rewrite Hp. intros Heq. apply Hne. cbn in Heq. congruence.
Qed.

Lemma send_json_in_step (msg : Webapp.json) (w : Webapp.world) :
  Webapp.in_step w -> Webapp.in_step (Webapp.send_json msg w).
Proof. intros H. exact H. Qed.

Lemma set_state_same (w : Webapp.world) : Webapp.set_state (Webapp.state w) w = w.
Proof. destruct w; reflexivity. Qed.

Lemma on_key_in_step (data : Webapp.dict) (w : Webapp.world) :
  Webapp.in_step w -> Webapp.in_step (Webapp.on_key data w).
Proof.
  intros H. unfold Webapp.on_key. cbv zeta. apply send_json_in_step.
  repeat match goal with |- context [if String.eqb ?a ?b then _ else _] =>
    destruct (String.eqb a b); [apply apply_state_in_step, H|] end.
  rewrite <- (set_state_same w) at 1. apply apply_state_in_step, H.
Qed.

Lemma on_command_in_step (data : Webapp.dict) (w : Webapp.world) :
  Webapp.in_step w -> Webapp.in_step (Webapp.on_command data w).
Proof.
  intros H. unfold Webapp.on_command. cbv zeta. apply send_json_in_step.
  repeat match goal with |- context [if String.eqb ?a ?b then _ else _] =>
    destruct (String.eqb a b); [apply apply_state_in_step, H|] end.
  rewrite <- (set_state_same w) at 1. apply apply_state_in_step, H.
Qed.

Lemma handle_in_step (w : Webapp.world) (e : Webapp.ws_event) :
  Webapp.in_step w -> Webapp.in_step (Webapp.handle w e).
Proof.
  intros H. destruct e as [|[raw|data|]|]; cbn [Webapp.handle Webapp.on_text Webapp.world_of].
  - exact H.
  - unfold Webapp.dispatch. cbv zeta.
    repeat match goal with |- context [if ?b then _ else _] => destruct b end;
      [apply on_key_in_step, H|apply on_command_in_step, H|exact H].
  - unfold Webapp.dispatch. cbv zeta.
    repeat match goal with |- context [if ?b then _ else _] => destruct b end;
      [apply on_key_in_step, H|apply on_command_in_step, H|exact H].
  - exact H.
  - apply apply_state_in_step, H.
Qed.

Lemma session_in_step (es : list Webapp.ws_event) :
  forall w : Webapp.world, Webapp.in_step w -> Webapp.in_step (Webapp.session es w).
Proof.
  induction es as [|e es IH]; intros w H; [exact H|].
  change (Webapp.session (e :: es) w) with (Webapp.session es (Webapp.handle w e)).
  apply IH, handle_in_step, H.
Qed.

Lemma boot_in_step : Webapp.in_step Webapp.boot.
Proof. unfold Webapp.in_step. cbn. auto. Qed.

(** X12. At every moment of any sequence of connects, frames and disconnects,
    the method last invoked on the controller is the one [apply_state]
    chooses for the flags as they stand ([stop] for the cleared flags of the
    start, before any invocation), and the mock's recorded last command is
    that method's name. *)
Theorem controller_follows_flags :
  forall es : list Webapp.ws_event,
    let w := Webapp.session es Webapp.boot in
    Webapp.apply_state w = Webapp.invoke (last (Webapp.invoked w) Webapp.m_stop) w
    /\ Webapp.last_cmd (Webapp.controller w)
       = Webapp.name (last (Webapp.invoked w) Webapp.m_stop).
Proof.
  intros es w. destruct (session_in_step es _ boot_in_step) as (H1 & H2 & _).
  fold w in H1, H2. rewrite apply_state_is_chosen, H1. auto.
Qed.

(** X13. The mock controller prints a line only when the command changes:
    over any session, however often a method is invoked again, no two
    consecutive printed lines are the same, and the last line printed names
    the recorded last command. *)
Theorem mock_prints_changes_only :
  forall es : list Webapp.ws_event,
    let c := Webapp.controller (Webapp.session es Webapp.boot) in
    Webapp.no_repeat_lines (Webapp.printed c)
    /\ (Webapp.printed c = []
        \/ last (Webapp.printed c) "" = String.append "[MOCK ROBOT] " (Webapp.last_cmd c)).
Proof.
  intros es c. destruct (session_in_step es _ boot_in_step) as (_ & _ & H3 & H4).
  auto.
Qed.

(** ** Letter case, bare text, and the two transports *)

Lemma lower_char_idem (c : ascii) :
  Webapp.lower_char (Webapp.lower_char c) = Webapp.lower_char c.
Proof. destruct c as [[] [] [] [] [] [] [] []]; reflexivity. Qed.

Lemma lower_idem (s : string) : Webapp.lower (Webapp.lower s) = Webapp.lower s.
Proof.
  induction s as [|c s IH]; [reflexivity|].
  cbn [Webapp.lower]. rewrite lower_char_idem, IH. reflexivity.
Qed.

(** X14. Commands and keys are read without regard to letter case, and a
    command may be sent as bare text: a command word in any case, as the [cmd]
    of a JSON command or as a text frame that is not JSON, is handled exactly
    as the lower-case JSON command, and a key message in upper case exactly as
    in lower case. *)
Theorem case_and_bare_text_do_not_matter :
  forall (c : string) (pressed : bool) (w : Webapp.world),
    Webapp.is_ascii c = true ->
    Webapp.on_text (Webapp.command c) w
    = Webapp.on_text (Webapp.command (Webapp.lower c)) w
    /\ Webapp.on_text (Webapp.NotJson c) w = Webapp.on_text (Webapp.command c) w
    /\ Webapp.on_text (Webapp.key_frame c pressed) w
       = Webapp.on_text (Webapp.key_frame (Webapp.lower c) pressed) w.
Proof.
  intros c pressed w _.
  unfold Webapp.command, Webapp.key_frame, Webapp.on_text, Webapp.dispatch.
  cbn [Webapp.get Webapp.eq_literal String.eqb Ascii.eqb Bool.eqb]. cbv zeta.
  cbn match. unfold Webapp.on_command, Webapp.on_key.
  cbn [Webapp.get Webapp.eq_literal Webapp.str String.eqb Ascii.eqb Bool.eqb].
  cbv zeta. cbn match. rewrite lower_idem. repeat split.
Qed.

Lemma case_and_bare_text_do_not_matter_witness :
  Webapp.on_text (Webapp.command "Forward") Webapp.boot
  = Webapp.on_text (Webapp.command "forward") Webapp.boot
  /\ Webapp.on_text (Webapp.NotJson "STOP") Webapp.boot
     = Webapp.on_text (Webapp.command "STOP") Webapp.boot
  /\ Webapp.on_text (Webapp.key_frame "W" true) Webapp.boot
     = Webapp.on_text (Webapp.key_frame "w" true) Webapp.boot.
Proof.
  destruct (case_and_bare_text_do_not_matter "Forward" true Webapp.boot eq_refl)
    as (H1 & _ & _).
  destruct (case_and_bare_text_do_not_matter "STOP" true Webapp.boot eq_refl)
    as (_ & H2 & _).
  destruct (case_and_bare_text_do_not_matter "W" true Webapp.boot eq_refl)
    as (_ & _ & H3).
  split; [exact H1|]. split; [exact H2|exact H3].
Defined.

(** X15. The two transports turn a key event into the same flag update: for
    each of the keys w, a, s, d, pressed or released, the webapp's handling of
    the JSON key message and the socket server's handling of the message the
    keyboard client sends leave the same four flags, when they started from
    the same flags. *)
Theorem transports_agree_on_key_events :
  forall (k : string) (pressed : bool) (w : Webapp.world) (g : ServerSocket.globals),
    In k ["w"; "a"; "s"; "d"] ->
    Webapp.flags_code (Webapp.state w) = ServerSocket.flags_of g ->
    Webapp.flags_code
      (Webapp.state (Webapp.world_of (Webapp.on_text (Webapp.key_frame k pressed) w)))
    = ServerSocket.flags_of
        (fst (ServerSocket.receive (Webapp.text_message k pressed) g)).
Proof.
  intros k pressed [[f b l r] c inv snt] [pv fv bv lv rv ex] Hk Hf.
  unfold Webapp.flags_code, ServerSocket.flags_of in Hf.
  cbn [Webapp.state Webapp.forward Webapp.backward Webapp.left Webapp.right
       ServerSocket.forwardvar ServerSocket.backwardvar ServerSocket.leftvar
       ServerSocket.rightvar] in Hf.
  injection Hf as <- <- <- <-.
  cbn [In] in Hk. destruct Hk as [<-|[<-|[<-|[<-|[]]]]]; destruct pressed;
    destruct f, b, l, r; reflexivity.
Qed.

Lemma transports_agree_on_key_events_witness :
  Webapp.flags_code
    (Webapp.state (Webapp.world_of (Webapp.on_text (Webapp.key_frame "a" true)
                                                   Webapp.boot)))
  = ServerSocket.flags_of
      (fst (ServerSocket.receive (Webapp.text_message "a" true) ServerSocket.initial)).
Proof.
  apply (transports_agree_on_key_events "a" true Webapp.boot ServerSocket.initial).
  - cbn; auto.
  - reflexivity.
Defined.

(** X16. Whenever a pass of the socket server's engine calls an actuator
    function, [apply_state] of the webapp chooses the same motion for the same
    flags, except when forward and backward are held together with exactly
    one turn key: there the socket server turns and the webapp stops. *)
Theorem engines_agree_when_the_socket_server_acts :
  forall (fl : Spec.DirectionFlags) (prev : Spec.MotionCommand),
    match ServerSocket.issued (ServerSocket.tick (ServerSocket.holding fl prev)) with
    | [c] =>
        Webapp.chosen (Webapp.state_of_flags fl)
        = (if Spec.f_forward fl && Spec.f_backward fl
              && xorb (Spec.f_left fl) (Spec.f_right fl)
           then Webapp.m_stop else Webapp.method_of_call c)
        /\ (Spec.f_forward fl && Spec.f_backward fl
            && xorb (Spec.f_left fl) (Spec.f_right fl) = true ->
            c = ServerSocket.call_left \/ c = ServerSocket.call_right)
    | _ => True
    end.
Proof.
  intros [[] [] [] []] []; cbn; auto; split; auto; discriminate.
Qed.

(** ** How the threads end *)

Lemma step_ended_by_exit (s : ServerSocket.system) (e : ServerSocket.event) :
  ServerSocket.ended_by_exit s -> ServerSocket.ended_by_exit (ServerSocket.step s e).
Proof.
  intros [Hr Hs].
  destruct (ServerSocket.is_tick e) eqn:Ht.
  - destruct e; try discriminate. cbn [ServerSocket.step].
    destruct (ServerSocket.robot_running s) eqn:Hrun; 
      [|split; [intros _; exact (Hr eq_refl)|exact Hs]].
    destruct (tick_frame (ServerSocket.vars s)) as [_ Hx].
    split; cbn [ServerSocket.robot_running ServerSocket.vars ServerSocket.calls
                ServerSocket.socket]; rewrite Hx; [|exact Hs].
    destruct (ServerSocket.exit_program (ServerSocket.vars s) =? 1) eqn:Hx1.
    + intros _. split; [apply Z.eqb_eq, Hx1|].
      exists (ServerSocket.calls s). unfold ServerSocket.tick. rewrite Hx1. reflexivity.
    + intros Hg. exfalso.
      destruct (tick_shape (ServerSocket.vars s)) as [Hsh|(c & Hsh & _)];
        rewrite Hsh in Hg; cbn [ServerSocket.goes_on] in Hg;
        [discriminate|rewrite Hx1 in Hg; discriminate].
  - destruct (socket_event_frame s e Ht) as (Hc & _ & Hrr & _ & Hex).
    split.
    + rewrite Hrr, Hc. intros H. destruct (Hr H) as [H1 H2]. auto.
    + intros Hend. apply Hex.
      destruct (ServerSocket.socket s) eqn:Hsock; [| |apply Hs; reflexivity];
        destruct e as [| |d|]; try discriminate Ht; cbn [ServerSocket.step] in Hend;
        rewrite Hsock in Hend; cbn [ServerSocket.socket] in Hend;
        try discriminate Hend; try congruence;
        try (destruct (ServerSocket.exit_program (ServerSocket.vars s) =? 1) eqn:Hx1;
             [apply Z.eqb_eq, Hx1|discriminate Hend]).
      destruct (ServerSocket.receive d (ServerSocket.vars s)) as [g' [|]];
        simpl in Hend; discriminate Hend.
Qed.

Lemma run_ended_by_exit (es : list ServerSocket.event) :
  forall s : ServerSocket.system,
    ServerSocket.ended_by_exit s -> ServerSocket.ended_by_exit (ServerSocket.run es s).
Proof.
  induction es as [|e es IH]; intros s Hs; [exact Hs|].
  change (ServerSocket.run (e :: es) s) with (ServerSocket.run es (ServerSocket.step s e)).
  apply IH, step_ended_by_exit, Hs.
Qed.

(** X17. Neither thread ends without an [exit] message: whenever the robot
    thread has left its loop, [exit_program] is 1, the last actuator call was
    [clear()], the recorded command is 0 and all four pins are LOW; and
    whenever the socket thread has left its loop, [exit_program] is 1. *)
Theorem threads_end_only_on_exit :
  forall (p : ServerSocket.pins) (es : list ServerSocket.event),
    let s := ServerSocket.run es (ServerSocket.boot p) in
    (ServerSocket.robot_running s = false ->
     ServerSocket.exit_program (ServerSocket.vars s) = 1
     /\ ServerSocket.previousstate (ServerSocket.vars s) = 0
     /\ last (ServerSocket.calls s) ServerSocket.call_forward = ServerSocket.call_clear
     /\ ServerSocket.gpio s
        = ServerSocket.Pins ServerSocket.LOW ServerSocket.LOW
                            ServerSocket.LOW ServerSocket.LOW)
    /\ (ServerSocket.socket s = ServerSocket.Ended ->
        ServerSocket.exit_program (ServerSocket.vars s) = 1).
Proof.
  intros p es s.
  assert (H0 : ServerSocket.ended_by_exit (ServerSocket.boot p)).
  { split; cbn; intros H; discriminate H. }
  destruct (run_ended_by_exit es _ H0) as [Hr Hs]. fold s in Hr, Hs.
  destruct (run_consistent p es _ (boot_consistent p)) as (_ & Hp & Hg & _).
  fold s in Hp, Hg.
  split; [|exact Hs].
  intros Hrun. destruct (Hr Hrun) as [Hx [cs Hcs]].
  rewrite Hcs in Hp, Hg |- *. unfold ServerSocket.last_code in Hp.
  rewrite last_last in Hp, Hg |- *.
  split; [exact Hx|]. split; [exact Hp|]. split; [reflexivity|].
  rewrite Hg. destruct (cs ++ [ServerSocket.call_clear]) eqn:Hl;
    [destruct cs; discriminate Hl|reflexivity].
Qed.

(** [exit] on the first connection, a pass of the robot thread, and an
    exception in [accept]: both threads have ended. *)
Lemma threads_end_only_on_exit_witness :
  let s := ServerSocket.run
             [ ServerSocket.Accept; ServerSocket.Recv "'w' press"; ServerSocket.RobotTick
             ; ServerSocket.Recv "exit"; ServerSocket.RobotTick; ServerSocket.Raise ]
             (ServerSocket.boot (ServerSocket.Pins ServerSocket.LOW ServerSocket.LOW
                                                   ServerSocket.LOW ServerSocket.LOW)) in
  ServerSocket.robot_running s = false
  /\ ServerSocket.socket s = ServerSocket.Ended
  /\ ServerSocket.calls s = [ServerSocket.call_forward; ServerSocket.call_clear]
  /\ ServerSocket.exit_program (ServerSocket.vars s) = 1
  /\ ServerSocket.gpio s
     = ServerSocket.Pins ServerSocket.LOW ServerSocket.LOW ServerSocket.LOW ServerSocket.LOW.
Proof.
  intros s.
  destruct (threads_end_only_on_exit
              (ServerSocket.Pins ServerSocket.LOW ServerSocket.LOW
                                 ServerSocket.LOW ServerSocket.LOW)
              [ ServerSocket.Accept; ServerSocket.Recv "'w' press"; ServerSocket.RobotTick
              ; ServerSocket.Recv "exit"; ServerSocket.RobotTick; ServerSocket.Raise ])
    as [Hr _].
  destruct (Hr eq_refl) as (Hx & _ & _ & Hg).
  split; [reflexivity|]. split; [reflexivity|]. split; [reflexivity|].
  split; [exact Hx|exact Hg].
Defined.
